(** * Tapering windows of [lops/utils/tapers.py]

    A shallow embedding of the four taper constructors [hanningtaper],
    [cosinetaper], [taper2d] and [taper3d], together with the numpy
    primitives they are built from, and the properties of the
    specification that hold (or fail) on them.

    Conventions of the embedding:
    - Python integers are [Z]; [//] is [Z.div] and [%] is [Z.modulo]
      (both round towards minus infinity, as in Python).
    - A numpy [float64] is a [float64] below: a real number, a signed
      infinity or NaN.  Arithmetic on the finite values of the arrays is
      exact real arithmetic (their rounding is not modelled); the special
      values follow IEEE 754, so that a division by zero is visible.
    - The one Python float that is printed, the bound in the error
      message of [hanningtaper], is modelled with the rounding to 53
      significant bits and the overflow of a binary64.
    - A 1-D array is a [list float64]; a 2-D array is a list of rows; a
      3-D array is a list of planes (axis 0), each a list of rows (axis 1)
      of cells along axis 2.
    - An exception is a value of [exn]; a function that can raise returns
      [result A = exn + A].
    - Calls to [matplotlib.pyplot] are recorded in a log that the
      functions with a [plotflag] thread through ([Py]). *)

From Stdlib Require Import String DecimalString.
From Stdlib Require Import ZArith List Bool Reals Lra Lia.
Import ListNotations.

Open Scope Z_scope.

(** ** Floating-point values *)

Module Float.

Inductive float64 : Type :=
| Fin (r : R)
| Inf (negative : bool)
| NaN.

Definition is_neg (r : R) : bool := if Rlt_dec r 0 then true else false.
Definition is_zero (r : R) : bool := if Req_dec_T r 0 then true else false.

Definition of_int (z : Z) : float64 := Fin (IZR z).

Definition neg (x : float64) : float64 :=
  match x with
  | Fin a => Fin (- a)
  | Inf s => Inf (negb s)
  | NaN => NaN
  end.

Definition add (x y : float64) : float64 :=
  match x, y with
  | NaN, _ | _, NaN => NaN
  | Fin a, Fin b => Fin (a + b)
  | Inf s, Fin _ => Inf s
  | Fin _, Inf t => Inf t
  | Inf s, Inf t => if Bool.eqb s t then Inf s else NaN
  end.

Definition sub (x y : float64) : float64 := add x (neg y).

Definition mul (x y : float64) : float64 :=
  match x, y with
  | NaN, _ | _, NaN => NaN
  | Fin a, Fin b => Fin (a * b)
  | Inf s, Fin b => if is_zero b then NaN else Inf (xorb s (is_neg b))
  | Fin a, Inf t => if is_zero a then NaN else Inf (xorb (is_neg a) t)
  | Inf s, Inf t => Inf (xorb s t)
  end.

(** Division as numpy performs it on arrays: a zero divisor gives NaN
    (for [0/0]) or an infinity, never an exception. *)
Definition div (x y : float64) : float64 :=
  match x, y with
  | NaN, _ | _, NaN => NaN
  | Fin a, Fin b =>
      if is_zero b then (if is_zero a then NaN else Inf (is_neg a))
      else Fin (a / b)
  | Fin _, Inf _ => Fin 0
  | Inf s, Fin b => Inf (xorb s (is_neg b))
  | Inf _, Inf _ => NaN
  end.

Definition cos (x : float64) : float64 :=
  match x with
  | Fin a => Fin (Rtrigo_def.cos a)
  | _ => NaN
  end.

(** [x ** n] for a non-negative integer exponent. *)
Fixpoint pow (x : float64) (n : nat) : float64 :=
  match n with
  | O => Fin 1
  | S k => mul x (pow x k)
  end.

Definition pi : float64 := Fin PI.
Definition one : float64 := Fin 1.
Definition half : float64 := Fin (1 / 2).
Definition two : float64 := Fin 2.

(** [0 <= x <= 1] as a floating-point comparison: false on NaN. *)
Definition in_unit (x : float64) : Prop :=
  exists r, x = Fin r /\ (0 <= r <= 1)%R.

(** The comparison [x == y] of two floats: NaN is equal to nothing. *)
Definition eq (x y : float64) : Prop :=
  match x, y with
  | Fin a, Fin b => a = b
  | Inf s, Inf t => s = t
  | _, _ => False
  end.

End Float.

Import Float.

(** ** Exceptions *)

Inductive exn : Type :=
| ValueError (msg : string)
| IndexError (msg : string)
| OverflowError (msg : string).

Definition result (A : Type) : Type := (exn + A)%type.

Definition ok {A} (a : A) : result A := inr a.
Definition raise {A} (e : exn) : result A := inl e.

Definition rbind {A B} (m : result A) (k : A -> result B) : result B :=
  match m with
  | inl e => inl e
  | inr a => k a
  end.

Declare Scope result_scope.
Delimit Scope result_scope with result.
Notation "x <- m ;; k" := (rbind m (fun x => k))
  (at level 61, m at next level, right associativity) : result_scope.

(** ** The numpy primitives used by the module *)

(** ['%d' % z] *)
Definition fmt_d (z : Z) : string := NilZero.string_of_int (Z.to_int z).

(** [np.arange(n)]: the integers [0 .. n-1], empty when [n <= 0]. *)
Definition np_arange (n : Z) : list Z := map Z.of_nat (seq 0 (Z.to_nat n)).

(** [np.ones(n)]: numpy refuses a negative length. *)
Definition np_ones (n : Z) : result (list float64) :=
  if n <? 0 then raise (ValueError "negative dimensions are not allowed")
  else ok (repeat one (Z.to_nat n)).

(** [np.hanning(M)]: empty for [M < 1], a single one for [M = 1], and
    [0.5 - 0.5*cos(2*pi*n/(M-1))] for [n = 0 .. M-1] otherwise. *)
Definition hanning_sample (M n : Z) : float64 :=
  sub half (mul half (cos (div (mul (mul two pi) (of_int n)) (of_int (M - 1))))).

Definition np_hanning (M : Z) : list float64 :=
  if M <? 1 then []
  else if M =? 1 then [one]
  else map (hanning_sample M) (np_arange M).

(** [a[:stop]] on a 1-D array: a negative [stop] counts from the end and
    the bound is clipped to the length. *)
Definition slice_to {A} (a : list A) (stop : Z) : list A :=
  let len := Z.of_nat (length a) in
  let stop' := if stop <? 0 then Z.max 0 (len + stop) else Z.min stop len in
  firstn (Z.to_nat stop') a.

Definition np_flipud {A} (a : list A) : list A := rev a.

Definition np_concatenate {A} (parts : list (list A)) : list A := concat parts.

(** ** The 1-D tapers *)

(** The integer nearest to [q] among those a binary64 holds: [q] keeps
    its 53 leading bits, the bits dropped round to nearest, ties to the
    even significand. *)
Definition round53 (q : Z) : Z :=
  let m := Z.abs q in
  let e := Z.log2 m + 1 - 53 in
  if e <=? 0 then q
  else
    let hi := m / 2 ^ e in
    let lo := m mod 2 ^ e in
    let half := 2 ^ (e - 1) in
    let hi' := if (half <? lo) || ((lo =? half) && Z.odd hi) then hi + 1 else hi in
    Z.sgn q * (hi' * 2 ^ e).

(** [a / b] on Python integers when [b] divides [a], as in the two
    divisions of [hanningtaper]: the float nearest to the integer
    quotient, given by its integer value, or [OverflowError] when that
    float would exceed the range of a binary64. *)
Definition true_div_exact (a b : Z) : result Z :=
  let r := round53 (a / b) in
  if 2 ^ 1024 <=? Z.abs r
  then raise (OverflowError "integer division result too large for a float")
  else ok r.

(** [nmask/2 if nmask % 2 == 0 else (nmask-1)/2] *)
Definition ntap_min (nmask : Z) : result Z :=
  if nmask mod 2 =? 0 then true_div_exact nmask 2
  else true_div_exact (nmask - 1) 2.

(** ['ntap=%d must be smaller or equal than %d' % (ntap, ntap_min)]: [%d]
    prints the integer value of the float [ntap_min]. *)
Definition ntap_message (ntap ntap_min : Z) : string :=
  ("ntap=" ++ fmt_d ntap ++ " must be smaller or equal than "
     ++ fmt_d ntap_min)%string.

Definition hanningtaper (nmask ntap : Z) : result (list float64) :=
  if (0 <? ntap) && (nmask / ntap <? 2) then
    (ntap_min <- ntap_min nmask ;;
     raise (ValueError (ntap_message ntap ntap_min)))%result
  else
    let han_win := np_hanning (ntap * 2 - 1) in
    let st_tpr := slice_to han_win ntap in
    (mid_tpr <- np_ones (nmask - 2 * ntap) ;;
     let end_tpr := np_flipud st_tpr in
     ok (np_concatenate [st_tpr; mid_tpr; end_tpr]))%result.

Definition exponent (square : bool) : nat := if negb square then 1%nat else 2%nat.

Definition cosine_sample (nmask : Z) (square : bool) (i : Z) : float64 :=
  let c := div (of_int (nmask - 1)) (of_int 2) in
  pow (mul half (add (cos (div (mul (sub (of_int i) c) pi) c)) one))
      (exponent square).

Definition cosinetaper (nmask : Z) (square : bool) : list float64 :=
  map (cosine_sample nmask square) (np_arange nmask).

(** ** Plotting: the calls made to [matplotlib.pyplot] *)

Inductive plt_call : Type :=
| Figure (width height : Z)
| Plot (y : list float64) (fmt : string) (lw : Z)
| Imshow (img : list (list float64)) (cmap : string)
| Title (s : string)
| Xlabel (s : string)
| Ylabel (s : string).

(** A computation that may raise and that appends to the log of plotting
    calls; the log survives an exception. *)
Definition Py (A : Type) : Type := list plt_call -> result A * list plt_call.

Definition ret {A} (a : A) : Py A := fun log => (ok a, log).

Definition bind {A B} (m : Py A) (k : A -> Py B) : Py B :=
  fun log =>
    match m log with
    | (inl e, log') => (inl e, log')
    | (inr a, log') => k a log'
    end.

Definition lift {A} (r : result A) : Py A := fun log => (r, log).

Definition plt (c : plt_call) : Py unit := fun log => (ok tt, log ++ [c]).

(** The value returned (or the exception raised) from a given log. *)
Definition returns {A} (m : Py A) (log : list plt_call) : result A := fst (m log).

Declare Scope py_scope.
Delimit Scope py_scope with py.
Notation "x <- m ;; k" := (bind m (fun x => k))
  (at level 61, m at next level, right associativity) : py_scope.
Notation "m ;; k" := (bind m (fun _ => k))
  (at level 61, right associativity) : py_scope.

(** ** Arrays of two and three dimensions *)

(** [a[:, np.newaxis]] and [a[:, :, np.newaxis]]: a new last axis of
    extent one. *)
Definition newaxis {A} (a : list A) : list (list A) := map (fun x => [x]) a.

Definition newaxis2 {A} (a : list (list A)) : list (list (list A)) :=
  map newaxis a.

(** [n] copies of a list laid end to end. *)
Definition tile_axis {A} (n : Z) (l : list A) : list A :=
  concat (repeat l (Z.to_nat n)).

(** [np.tile(a, reps)] on a 2-D array with two repetition counts, and on
    a 3-D array, where numpy first promotes [reps] to the three axes by
    prepending ones.  A negative count is refused with a [ValueError]
    (whose wording depends on the numpy release). *)
Definition np_tile2 {A} (a : list (list A)) (reps : Z * Z)
  : result (list (list A)) :=
  let '(r0, r1) := reps in
  if (r0 <? 0) || (r1 <? 0)
  then raise (ValueError "repeats may not contain negative values.")
  else ok (tile_axis r0 (map (tile_axis r1) a)).

Definition np_tile3 {A} (a : list (list (list A))) (reps : Z * Z)
  : result (list (list (list A))) :=
  let '(r0, r1, r2) := (1, fst reps, snd reps) in
  if (r1 <? 0) || (r2 <? 0)
  then raise (ValueError "repeats may not contain negative values.")
  else ok (tile_axis r0 (map (fun plane => tile_axis r1 (map (tile_axis r2) plane)) a)).

(** [np.outer(a, b)] *)
Definition np_outer (a b : list float64) : list (list float64) :=
  map (fun x => map (fun y => mul x y) b) a.

(** [a[:, :, idx]] on a 3-D array whose third axis has extent [n2]: a
    negative index counts from the end, and an index outside the axis
    raises [IndexError]. *)
Definition index_axis2 (a : list (list (list float64))) (n2 idx : Z)
  : result (list (list float64)) :=
  if (idx <? - n2) || (n2 <=? idx)
  then raise (IndexError ("index " ++ fmt_d idx ++ " is out of bounds for axis 2 with size "
                            ++ fmt_d n2)%string)
  else
    let k := Z.to_nat (if idx <? 0 then idx + n2 else idx) in
    ok (map (map (fun cell => nth k cell NaN)) a).

(** Column [j] of a 2-D array, [a[:, j]], and slice [k] of a 3-D array,
    [a[:, :, k]], for an index known to be within the axis. *)
Definition column (j : nat) (a : list (list float64)) : list (option float64) :=
  map (fun row => nth_error row j) a.

Definition slice2 (k : nat) (a : list (list (list float64)))
  : list (list (option float64)) :=
  map (map (fun cell => nth_error cell k)) a.

(** The shape of a nested list. *)
Definition has_shape2 {A} (a : list (list A)) (n0 n1 : Z) : Prop :=
  Z.of_nat (length a) = n0 /\
  Forall (fun row => Z.of_nat (length row) = n1) a.

Definition has_shape3 {A} (a : list (list (list A))) (n0 n1 n2 : Z) : Prop :=
  Z.of_nat (length a) = n0 /\
  Forall (fun plane => has_shape2 plane n1 n2) a.

(** ** The 2-D and 3-D tapers *)

(** [tapertype == s], where [tapertype] is [None] or a string. *)
Definition is_type (tapertype : option string) (s : string) : bool :=
  match tapertype with
  | Some t => String.eqb t s
  | None => false
  end.

Definition taper2d (nt nmask ntap : Z) (tapertype : option string)
    (plotflag : bool) : Py (list (list float64)) :=
  (tpr_1d <- lift (if is_type tapertype "hanning" then hanningtaper nmask ntap
                   else if is_type tapertype "cosine" then ok (cosinetaper nmask false)
                   else if is_type tapertype "cosinesquare" then ok (cosinetaper nmask true)
                   else np_ones nmask) ;;
   tpr_2d <- lift (np_tile2 (newaxis tpr_1d) (1, nt)) ;;
   (if plotflag then
      plt (Figure 7 3) ;;
      plt (Plot tpr_1d "k" 2) ;;
      plt (Title "Taper")
    else ret tt) ;;
   ret tpr_2d)%py.

Definition taper3d (nt : Z) (nmask ntap : Z * Z) (tapertype : option string)
    (plotflag : bool) : Py (list (list (list float64))) :=
  let '(nmasky, nmaskx) := (fst nmask, snd nmask) in
  let '(ntapy, ntapx) := (fst ntap, snd ntap) in
  (tpr <- lift
     (if is_type tapertype "hanning" then
        (tpr_y <- hanningtaper nmasky ntapy ;;
         tpr_x <- hanningtaper nmaskx ntapx ;;
         ok (tpr_y, tpr_x))%result
      else if is_type tapertype "cosine" then
        ok (cosinetaper nmasky false, cosinetaper nmaskx false)
      else if is_type tapertype "cosinesquare" then
        ok (cosinetaper nmasky true, cosinetaper nmaskx true)
      else
        (tpr_y <- np_ones nmasky ;;
         tpr_x <- np_ones nmaskx ;;
         ok (tpr_y, tpr_x))%result) ;;
   let '(tpr_y, tpr_x) := tpr in
   let tpr_yx := np_outer tpr_y tpr_x in
   tpr_3d <- lift (np_tile3 (newaxis2 tpr_yx) (1, nt)) ;;
   (if plotflag then
      plt (Figure 7 3) ;;
      img <- lift (index_axis2 tpr_3d nt (Z.quot nt 2)) ;;
      plt (Imshow img "jet") ;;
      plt (Title "Taper in y-x slice") ;;
      plt (Xlabel "x") ;;
      plt (Ylabel "y")
    else ret tt) ;;
   ret tpr_3d)%py.

(** ** Vocabulary of the specification *)

(** The precondition of [hanningtaper] for a positive taper width. *)
Definition hanning_pre (nmask ntap : Z) : Prop := 0 < ntap /\ 2 <= nmask / ntap.

(** The cosine formula as the specification writes it, over the reals:
    [(0.5 * (cos((i - (nmask-1)/2) * pi / ((nmask-1)/2)) + 1))^exponent]. *)
Definition cosine_formula (nmask : Z) (square : bool) (i : Z) : R :=
  ((1 / 2 * (Rtrigo_def.cos ((IZR i - (IZR nmask - 1) / 2) * PI / ((IZR nmask - 1) / 2)) + 1))
     ^ (if square then 2 else 1))%R.

(** The 1-D taper that [taper2d] selects by [tapertype], and the pair
    that [taper3d] selects, as expressions of their own. *)
Definition selected_1d (nmask ntap : Z) (tapertype : option string)
  : result (list float64) :=
  if is_type tapertype "hanning" then hanningtaper nmask ntap
  else if is_type tapertype "cosine" then ok (cosinetaper nmask false)
  else if is_type tapertype "cosinesquare" then ok (cosinetaper nmask true)
  else np_ones nmask.

Definition selected_yx (nmask ntap : Z * Z) (tapertype : option string)
  : result (list float64 * list float64) :=
  (tpr_y <- selected_1d (fst nmask) (fst ntap) tapertype ;;
   tpr_x <- selected_1d (snd nmask) (snd ntap) tapertype ;;
   ok (tpr_y, tpr_x))%result.

(** The precondition of the taper selected by [tapertype]: that of
    [hanningtaper], two samples or more for the cosine tapers, and a
    non-negative length for the flat mask. *)
Definition taper_pre (tapertype : option string) (nmask ntap : Z) : Prop :=
  if is_type tapertype "hanning" then hanning_pre nmask ntap
  else if is_type tapertype "cosine" || is_type tapertype "cosinesquare"
       then 2 <= nmask
  else 0 <= nmask.

(** A 2-D array of shape [(nmask, nt)] whose every column is [tpr]. *)
Definition replicates (a : list (list float64)) (tpr : list float64)
    (nmask nt : Z) : Prop :=
  has_shape2 a nmask nt /\
  forall j, 0 <= j < nt -> column (Z.to_nat j) a = map Some tpr.

(** Entry [(y, x, k)] of a 3-D array. *)
Definition entry3 (a : list (list (list float64))) (y x k : nat)
  : option float64 :=
  match nth_error a y with
  | Some plane =>
      match nth_error plane x with
      | Some cell => nth_error cell k
      | None => None
      end
  | None => None
  end.

(** Entry [(y, k)] of a 2-D array. *)
Definition entry2 (a : list (list float64)) (y k : nat) : option float64 :=
  match nth_error a y with
  | Some row => nth_error row k
  | None => None
  end.

(** A [tapertype] that selects no taper: [None], or a string other than
    the three names the functions compare with. *)
Definition no_taper (tapertype : option string) : bool :=
  negb (is_type tapertype "hanning") &&
  negb (is_type tapertype "cosine") &&
  negb (is_type tapertype "cosinesquare").

(** * Properties *)

(** ** Lists: ranges, tiling and symmetric concatenation *)

Section ListFacts.

Context {A : Type}.

Lemma length_np_arange (n : Z) : length (np_arange n) = Z.to_nat n.
Proof. unfold np_arange. now rewrite length_map, length_seq. Qed.

Lemma nth_error_np_arange (n : Z) (i : nat) :
  (i < Z.to_nat n)%nat -> nth_error (np_arange n) i = Some (Z.of_nat i).
Proof.
  intros Hi. unfold np_arange.
  rewrite nth_error_map, nth_error_seq.
  destruct (Nat.ltb_spec i (Z.to_nat n)); [reflexivity | lia].
Qed.

Lemma in_np_arange (n i : Z) : In i (np_arange n) -> 0 <= i < n.
Proof.
  unfold np_arange. rewrite in_map_iff.
  intros (k & <- & Hk). apply in_seq in Hk. lia.
Qed.

Lemma length_tile_axis (n : Z) (l : list A) :
  length (tile_axis n l) = (Z.to_nat n * length l)%nat.
Proof.
  unfold tile_axis. induction (Z.to_nat n) as [|k IH]; simpl.
  - reflexivity.
  - now rewrite length_app, IH.
Qed.

Lemma tile_axis_one (l : list A) : tile_axis 1 l = l.
Proof. unfold tile_axis. simpl. apply app_nil_r. Qed.

(** Tiling a one-element cell gives [n] copies of the element. *)
Lemma tile_axis_singleton (n : Z) (x : A) :
  tile_axis n [x] = repeat x (Z.to_nat n).
Proof.
  unfold tile_axis. induction (Z.to_nat n) as [|k IH]; simpl; congruence.
Qed.

Lemma nth_error_tile_singleton (n : Z) (x : A) (j : nat) :
  (j < Z.to_nat n)%nat -> nth_error (tile_axis n [x]) j = Some x.
Proof. intros Hj. rewrite tile_axis_singleton. now apply nth_error_repeat. Qed.

(** The layout built by [hanningtaper]: an edge, a plateau and the
    mirrored edge. *)
Variables (edge : list A) (m : nat) (x : A).

Let taper := np_concatenate [edge; repeat x m; np_flipud edge].

Lemma taper_eq : taper = edge ++ repeat x m ++ rev edge.
Proof. unfold taper, np_concatenate, np_flipud. simpl. now rewrite app_nil_r. Qed.

Lemma length_taper : length taper = (2 * length edge + m)%nat.
Proof.
  rewrite taper_eq, !length_app, repeat_length, length_rev. lia.
Qed.

Lemma taper_plateau (i : nat) :
  (length edge <= i < length edge + m)%nat -> nth_error taper i = Some x.
Proof.
  intros Hi. rewrite taper_eq.
  rewrite nth_error_app2 by lia.
  rewrite nth_error_app1 by (rewrite repeat_length; lia).
  apply nth_error_repeat. lia.
Qed.

Lemma taper_first (w : A) :
  nth_error edge 0 = Some w -> nth_error taper 0 = Some w.
Proof.
  intros Hw. rewrite taper_eq. destruct edge; [discriminate | exact Hw].
Qed.

Lemma taper_last (w : A) :
  nth_error edge 0 = Some w ->
  nth_error taper (2 * length edge + m - 1) = Some w.
Proof.
  intros Hw. rewrite taper_eq.
  assert (0 < length edge)%nat
    by (destruct edge; [discriminate | simpl; lia]).
  rewrite nth_error_app2 by lia.
  rewrite nth_error_app2 by (rewrite repeat_length; lia).
  rewrite repeat_length.
  replace (2 * length edge + m - 1 - length edge - m)%nat
    with (length edge - 1)%nat by lia.
  rewrite nth_error_rev.
  destruct (Nat.ltb_spec (length edge - 1) (length edge)); [| lia].
  replace (length edge - S (length edge - 1))%nat with 0%nat by lia.
  exact Hw.
Qed.

Lemma Forall_taper (P : A -> Prop) :
  Forall P edge -> P x -> Forall P taper.
Proof.
  intros He Hx. rewrite taper_eq.
  rewrite !Forall_app. repeat split.
  - exact He.
  - apply Forall_forall. intros y Hy.
    now rewrite (repeat_spec _ _ _ Hy).
  - now apply Forall_rev.
Qed.

End ListFacts.

(** ** Floating-point facts *)

Lemma is_zero_false (r : R) : r <> 0%R -> is_zero r = false.
Proof. intros H. unfold is_zero. now destruct (Req_dec_T r 0). Qed.

Lemma is_zero_true : is_zero 0 = true.
Proof. unfold is_zero. now destruct (Req_dec_T 0 0). Qed.

Lemma div_fin (a b : R) : b <> 0%R -> div (Fin a) (Fin b) = Fin (a / b).
Proof. intros H. simpl. now rewrite is_zero_false. Qed.

Lemma in_unit_one : in_unit one.
Proof. exists 1%R. split; [reflexivity | lra]. Qed.

Lemma in_unit_mul (x y : float64) : in_unit x -> in_unit y -> in_unit (mul x y).
Proof.
  intros (a & -> & Ha) (b & -> & Hb). exists (a * b)%R.
  split; [reflexivity | nra].
Qed.

Lemma pow_one (x : float64) : pow x 1 = x.
Proof.
  destruct x as [a | s |]; simpl.
  - now rewrite Rmult_1_r.
  - rewrite is_zero_false by lra.
    unfold is_neg. destruct (Rlt_dec 1 0); [lra | now rewrite xorb_false_r].
  - reflexivity.
Qed.

Lemma pow_two (x : float64) : pow x 2 = mul x x.
Proof. change (pow x 2) with (mul x (pow x 1)). now rewrite pow_one. Qed.

(** ** The Hanning window *)

Lemma hanning_sample_fin (M n : Z) :
  M <> 1 ->
  hanning_sample M n =
  Fin (1 / 2 - 1 / 2 * Rtrigo_def.cos (2 * PI * IZR n / IZR (M - 1))).
Proof.
  intros HM. unfold hanning_sample, two, pi, half, of_int.
  cbn [mul]. rewrite div_fin by (apply not_0_IZR; lia).
  reflexivity.
Qed.

Lemma in_unit_hanning_sample (M n : Z) : M <> 1 -> in_unit (hanning_sample M n).
Proof.
  intros HM. rewrite hanning_sample_fin by assumption.
  eexists. split; [reflexivity |].
  pose proof (COS_bound (2 * PI * IZR n / IZR (M - 1))). lra.
Qed.

Lemma length_np_hanning (M : Z) : 1 <= M -> length (np_hanning M) = Z.to_nat M.
Proof.
  intros HM. unfold np_hanning.
  destruct (Z.ltb_spec M 1); [lia |].
  destruct (Z.eqb_spec M 1) as [-> | _]; [reflexivity |].
  now rewrite length_map, length_np_arange.
Qed.

Lemma Forall_in_unit_np_hanning (M : Z) : Forall in_unit (np_hanning M).
Proof.
  unfold np_hanning.
  destruct (Z.ltb_spec M 1); [constructor |].
  destruct (Z.eqb_spec M 1) as [-> | HM].
  - repeat constructor. apply in_unit_one.
  - apply Forall_map, Forall_forall. intros n _.
    now apply in_unit_hanning_sample.
Qed.

(** The first sample of a window of two points or more is [0]. *)
Lemma np_hanning_first (M : Z) :
  2 <= M -> nth_error (np_hanning M) 0 = Some (Fin 0).
Proof.
  intros HM. unfold np_hanning.
  destruct (Z.ltb_spec M 1); [lia |].
  destruct (Z.eqb_spec M 1); [lia |].
  rewrite nth_error_map, nth_error_np_arange by lia. simpl.
  rewrite hanning_sample_fin by lia. f_equal. f_equal.
  replace (2 * PI * 0 / IZR (M - 1))%R with 0%R by (unfold Rdiv; ring).
  rewrite cos_0. lra.
Qed.

(** ** Slicing *)

Lemma slice_to_firstn {A} (a : list A) (stop : Z) :
  0 <= stop -> slice_to a stop = firstn (Z.to_nat stop) a.
Proof.
  intros Hs. unfold slice_to.
  destruct (Z.ltb_spec stop 0); [lia |].
  destruct (Z.le_gt_cases stop (Z.of_nat (length a))).
  - now rewrite Z.min_l.
  - rewrite Z.min_r, Nat2Z.id by lia.
    rewrite firstn_all. symmetry. apply firstn_all2. lia.
Qed.

Lemma slice_to_nil {A} (stop : Z) : slice_to (@nil A) stop = [].
Proof. unfold slice_to. now rewrite firstn_nil. Qed.

Lemma Forall_prefix {A} (P : A -> Prop) (n : nat) (l : list A) :
  Forall P l -> Forall P (firstn n l).
Proof.
  intros H. revert n. induction H as [|y l Hy _ IH]; intros [|n]; simpl;
    constructor; auto.
Qed.

(** The rising edge of [hanningtaper]: the first [ntap] samples of the
    window of [2*ntap-1] points. *)
Lemma rising_edge (ntap : Z) :
  0 < ntap ->
  let st_tpr := slice_to (np_hanning (ntap * 2 - 1)) ntap in
  length st_tpr = Z.to_nat ntap /\
  nth_error st_tpr 0 = nth_error (np_hanning (ntap * 2 - 1)) 0 /\
  Forall in_unit st_tpr.
Proof.
  intros Hn st_tpr. subst st_tpr.
  rewrite slice_to_firstn by lia. repeat split.
  - rewrite length_firstn, length_np_hanning by lia. lia.
  - destruct (Z.to_nat ntap) eqn:E; [lia |].
    now destruct (np_hanning (ntap * 2 - 1)).
  - apply Forall_prefix, Forall_in_unit_np_hanning.
Qed.

(** ** [hanningtaper] *)

Lemma hanningtaper_unfold (nmask ntap : Z) :
  (0 <? ntap) && (nmask / ntap <? 2) = false ->
  0 <= nmask - 2 * ntap ->
  hanningtaper nmask ntap =
  ok (np_concatenate [slice_to (np_hanning (ntap * 2 - 1)) ntap;
                      repeat one (Z.to_nat (nmask - 2 * ntap));
                      np_flipud (slice_to (np_hanning (ntap * 2 - 1)) ntap)]).
Proof.
  intros Hc Hm. unfold hanningtaper, np_ones. rewrite Hc.
  destruct (Z.ltb_spec (nmask - 2 * ntap) 0); [lia | reflexivity].
Qed.

Lemma hanning_pre_bounds (nmask ntap : Z) :
  0 < ntap -> 2 <= nmask / ntap -> 2 * ntap <= nmask.
Proof.
  intros Hn Hq. pose proof (Z.mul_div_le nmask ntap Hn). nia.
Qed.

(** For a valid positive width the result is the rising edge, a plateau
    of ones and the mirrored edge. *)
Lemma hanningtaper_layout (nmask ntap : Z) :
  0 < ntap -> 2 <= nmask / ntap ->
  exists st_tpr,
    length st_tpr = Z.to_nat ntap /\
    nth_error st_tpr 0 = nth_error (np_hanning (ntap * 2 - 1)) 0 /\
    Forall in_unit st_tpr /\
    hanningtaper nmask ntap =
      ok (np_concatenate [st_tpr; repeat one (Z.to_nat (nmask - 2 * ntap));
                          np_flipud st_tpr]).
Proof.
  intros Hn Hq.
  pose proof (hanning_pre_bounds _ _ Hn Hq) as Hb.
  destruct (rising_edge ntap Hn) as (Hlen & Hfst & Hunit).
  exists (slice_to (np_hanning (ntap * 2 - 1)) ntap).
  repeat split; [exact Hlen | exact Hfst | exact Hunit |].
  apply hanningtaper_unfold; [| lia].
  destruct (Z.ltb_spec (nmask / ntap) 2); [lia | apply andb_false_r].
Qed.

Lemma hanningtaper_length_unit (nmask ntap : Z) :
  0 < ntap -> 2 <= nmask / ntap ->
  exists tpr,
    hanningtaper nmask ntap = ok tpr /\
    Z.of_nat (length tpr) = nmask /\
    Forall in_unit tpr.
Proof.
  intros Hn Hq.
  pose proof (hanning_pre_bounds _ _ Hn Hq) as Hb.
  destruct (hanningtaper_layout nmask ntap Hn Hq) as (st & Hlen & _ & Hunit & ->).
  eexists. split; [reflexivity | split].
  - rewrite length_taper, Hlen. lia.
  - apply Forall_taper; [exact Hunit | apply in_unit_one].
Qed.

(** C1: for [ntap > 0] and [nmask // ntap >= 2], [hanningtaper] returns
    [nmask] values, each in [[0, 1]]; the first and the last value are the
    first sample of the Hanning window of [2*ntap-1] points, and every
    value at an index in [[ntap, nmask-ntap)] is exactly one. *)
Theorem hanningtaper_valid (nmask ntap : Z) :
  0 < ntap -> 2 <= nmask / ntap ->
  exists taper w,
    hanningtaper nmask ntap = ok taper /\
    Z.of_nat (length taper) = nmask /\
    Forall in_unit taper /\
    nth_error (np_hanning (2 * ntap - 1)) 0 = Some w /\
    nth_error taper 0 = Some w /\
    nth_error taper (Z.to_nat (nmask - 1)) = Some w /\
    (forall i, ntap <= i < nmask - ntap ->
               nth_error taper (Z.to_nat i) = Some one).
Proof.
  intros Hn Hq.
  pose proof (hanning_pre_bounds _ _ Hn Hq) as Hb.
  destruct (hanningtaper_layout nmask ntap Hn Hq) as (st & Hlen & Hfst & Hunit & Hok).
  assert (exists w, nth_error st 0 = Some w) as [w Hw].
  { destruct st as [|w ?]; [simpl in Hlen; lia | now exists w]. }
  eexists. exists w. split; [exact Hok |]. repeat split.
  - rewrite length_taper, Hlen. lia.
  - apply Forall_taper; [exact Hunit | apply in_unit_one].
  - replace (2 * ntap - 1) with (ntap * 2 - 1) by lia. now rewrite <- Hfst.
  - now apply taper_first.
  - replace (Z.to_nat (nmask - 1))
      with (2 * length st + Z.to_nat (nmask - 2 * ntap) - 1)%nat
      by (rewrite Hlen; lia).
    now apply taper_last.
  - intros i Hi. apply taper_plateau. rewrite Hlen. lia.
Qed.

Lemma hanningtaper_valid_witness :
  exists taper w,
    hanningtaper 10 3 = ok taper /\
    Z.of_nat (length taper) = 10 /\
    Forall in_unit taper /\
    nth_error (np_hanning (2 * 3 - 1)) 0 = Some w /\
    nth_error taper 0 = Some w /\
    nth_error taper (Z.to_nat (10 - 1)) = Some w /\
    (forall i, 3 <= i < 10 - 3 -> nth_error taper (Z.to_nat i) = Some one).
Proof. apply (hanningtaper_valid 10 3); [lia | vm_compute; discriminate]. Defined.

(** C10: with [ntap = 0] and [nmask >= 0] no check is made, the window
    and both edges are empty, and the result is [nmask] ones. *)
Theorem hanningtaper_zero_ntap (nmask : Z) :
  0 <= nmask ->
  hanningtaper nmask 0 = ok (repeat one (Z.to_nat nmask)) /\
  Z.of_nat (length (repeat one (Z.to_nat nmask))) = nmask.
Proof.
  intros Hm. split.
  - rewrite hanningtaper_unfold by (simpl; lia || reflexivity).
    change (np_hanning (0 * 2 - 1)) with (@nil float64).
    rewrite slice_to_nil. unfold np_concatenate, np_flipud. simpl.
    rewrite app_nil_r. do 3 f_equal. lia.
  - rewrite repeat_length. lia.
Qed.

Lemma hanningtaper_zero_ntap_witness :
  hanningtaper 4 0 = ok (repeat one (Z.to_nat 4)) /\
  Z.of_nat (length (repeat one (Z.to_nat 4))) = 4.
Proof. apply (hanningtaper_zero_ntap 4). lia. Defined.

Lemma round53_exact (q : Z) : Z.abs q <= 2 ^ 53 -> round53 q = q.
Proof.
  intros Hq. unfold round53.
  destruct (Z.eq_dec (Z.abs q) (2 ^ 53)) as [Heq | Hne].
  - destruct (Z.abs_eq_cases q (2 ^ 53)) as [-> | ->];
      [exact Heq | reflexivity | reflexivity].
  - assert (Z.log2 (Z.abs q) < 53) as Hlog.
    { destruct (Z.eq_dec (Z.abs q) 0) as [-> | Hnz]; [reflexivity |].
      apply Z.log2_lt_pow2; lia. }
    destruct (Z.leb_spec (Z.log2 (Z.abs q) + 1 - 53) 0); [reflexivity | lia].
Qed.

Lemma true_div_exact_small (a : Z) :
  Z.abs (a / 2) <= 2 ^ 53 -> true_div_exact a 2 = ok (a / 2).
Proof.
  intros Hq. unfold true_div_exact.
  rewrite round53_exact by exact Hq.
  assert (2 ^ 53 < 2 ^ 1024) as Hlt by reflexivity.
  destruct (Z.leb_spec (2 ^ 1024) (Z.abs (a / 2))); [lia | reflexivity].
Qed.

Lemma half_even_odd (nmask : Z) :
  (if Z.even nmask then nmask / 2 else (nmask - 1) / 2) = nmask / 2.
Proof.
  destruct (Z.even nmask) eqn:E; [reflexivity |].
  rewrite <- Z.negb_odd in E. apply negb_false_iff, Z.odd_spec in E.
  destruct E as [k ->]. Z.div_mod_to_equations. lia.
Qed.

(** Up to [2^54] in magnitude the float division is exact. *)
Lemma ntap_min_small (nmask : Z) :
  Z.abs nmask <= 2 ^ 54 -> ntap_min nmask = ok (nmask / 2).
Proof.
  intros Hm. unfold ntap_min.
  change (2 ^ 54) with 18014398509481984 in Hm.
  destruct (Z.eqb_spec (nmask mod 2) 0) as [Hev | Hodd].
  - apply true_div_exact_small.
    change (2 ^ 53) with 9007199254740992.
    Z.div_mod_to_equations. lia.
  - replace (nmask / 2) with ((nmask - 1) / 2)
      by (Z.div_mod_to_equations; lia).
    apply true_div_exact_small.
    change (2 ^ 53) with 9007199254740992.
    Z.div_mod_to_equations. lia.
Qed.

Lemma max_width (nmask t : Z) :
  0 < t -> (2 <= nmask / t <-> t <= nmask / 2).
Proof.
  intros Ht. split; intros H.
  - pose proof (Z.mul_div_le nmask t Ht).
    apply Z.div_le_lower_bound; nia.
  - pose proof (Z.mul_div_le nmask 2 eq_refl).
    apply Z.div_le_lower_bound; lia.
Qed.

(** What the failing branch does: the bound is computed first, then the
    [ValueError] is raised with it. *)
Lemma hanningtaper_raises (nmask ntap : Z) :
  0 < ntap -> nmask < 2 * ntap ->
  hanningtaper nmask ntap =
  (ntap_min <- ntap_min nmask ;;
   raise (ValueError (ntap_message ntap ntap_min)))%result.
Proof.
  intros Hn Hm. unfold hanningtaper.
  destruct (Z.ltb_spec 0 ntap); [| lia].
  assert (nmask / ntap < 2) by (apply Z.div_lt_upper_bound; lia).
  destruct (Z.ltb_spec (nmask / ntap) 2); [reflexivity | lia].
Qed.

Lemma hanningtaper_raises_some (nmask ntap : Z) :
  0 < ntap -> nmask < 2 * ntap ->
  exists e, hanningtaper nmask ntap = raise e.
Proof.
  intros Hn Hm. rewrite hanningtaper_raises by assumption.
  destruct (ntap_min nmask) as [e | m]; eexists; reflexivity.
Qed.



(** Beyond [2^54] the float no longer holds the bound: at
    [(2^54+2, 2^54)] the message carries [2^53] although the width
    [2^53+1] is valid, and at [(10^400, 10^400)] the division itself
    raises [OverflowError]. *)
Lemma hanningtaper_rounded_bound :
  hanningtaper (2 ^ 54 + 2) (2 ^ 54) =
    raise (ValueError
             "ntap=18014398509481984 must be smaller or equal than 9007199254740992") /\
  2 <= (2 ^ 54 + 2) / 9007199254740993.
Proof. split; [vm_compute; reflexivity | vm_compute; discriminate]. Qed.

Lemma hanningtaper_overflow :
  hanningtaper (10 ^ 400) (10 ^ 400) =
    raise (OverflowError "integer division result too large for a float").
Proof. vm_compute. reflexivity. Qed.


(** ** [cosinetaper] *)

(** From two samples on, no division by zero occurs and every sample is
    the finite value given by the formula of the specification. *)
Lemma cosine_sample_fin (nmask : Z) (square : bool) (i : Z) :
  nmask <> 1 ->
  cosine_sample nmask square i = Fin (cosine_formula nmask square i).
Proof.
  intros Hn. unfold cosine_sample, cosine_formula, of_int, pi, half, one.
  assert (IZR (nmask - 1) / 2 <> 0)%R as Hc.
  { assert (IZR (nmask - 1) <> 0)%R by (apply not_0_IZR; lia). lra. }
  rewrite div_fin by lra.
  cbn [sub neg add mul]. rewrite div_fin by exact Hc.
  cbn [cos add mul].
  rewrite minus_IZR.
  destruct square; reflexivity.
Qed.

(** With a single sample the centring term divides zero by zero. *)
Lemma cosinetaper_one_sample (square : bool) : cosinetaper 1 square = [NaN].
Proof.
  unfold cosinetaper. change (np_arange 1) with [0]. cbn [map]. f_equal.
  unfold cosine_sample, of_int, pi. change (1 - 1) with 0.
  rewrite div_fin by lra.
  cbn [sub neg add mul div].
  replace (0 / 2)%R with 0%R by lra.
  replace ((0 + - 0) * PI)%R with 0%R by ring.
  rewrite !is_zero_true. cbn [cos add mul].
  destruct square; reflexivity.
Qed.

Lemma length_cosinetaper (nmask : Z) (square : bool) :
  length (cosinetaper nmask square) = Z.to_nat nmask.
Proof. unfold cosinetaper. now rewrite length_map, length_np_arange. Qed.

Lemma nth_error_cosinetaper (nmask : Z) (square : bool) (i : Z) :
  0 <= i < nmask ->
  nth_error (cosinetaper nmask square) (Z.to_nat i) =
  Some (cosine_sample nmask square i).
Proof.
  intros Hi. unfold cosinetaper.
  rewrite nth_error_map, nth_error_np_arange by lia.
  simpl. now rewrite Z2Nat.id by lia.
Qed.

Lemma cosine_formula_symmetric (nmask : Z) (square : bool) (i : Z) :
  cosine_formula nmask square (nmask - 1 - i) = cosine_formula nmask square i.
Proof.
  unfold cosine_formula.
  set (c := ((IZR nmask - 1) / 2)%R).
  replace (IZR (nmask - 1 - i) - c)%R with (- (IZR i - c))%R
    by (unfold c; rewrite !minus_IZR; lra).
  replace (- (IZR i - c) * PI / c)%R with (- ((IZR i - c) * PI / c))%R
    by (unfold Rdiv; ring).
  now rewrite cos_neg.
Qed.

Lemma cosine_formula_centre (nmask : Z) :
  Z.odd nmask = true ->
  cosine_formula nmask false ((nmask - 1) / 2) = 1%R.
Proof.
  intros Hodd. unfold cosine_formula.
  assert (2 * ((nmask - 1) / 2) = nmask - 1) as H2.
  { apply Z.odd_spec in Hodd. destruct Hodd as [k ->].
    Z.div_mod_to_equations. lia. }
  apply (f_equal IZR) in H2. rewrite mult_IZR, minus_IZR in H2.
  replace (IZR ((nmask - 1) / 2)) with ((IZR nmask - 1) / 2)%R by lra.
  replace (((IZR nmask - 1) / 2 - (IZR nmask - 1) / 2) * PI / ((IZR nmask - 1) / 2))%R
    with 0%R by (unfold Rdiv; ring).
  rewrite cos_0. simpl. lra.
Qed.

Lemma cosine_formula_unit (nmask : Z) (square : bool) (i : Z) :
  (0 <= cosine_formula nmask square i <= 1)%R.
Proof.
  unfold cosine_formula.
  set (x := ((IZR i - (IZR nmask - 1) / 2) * PI / ((IZR nmask - 1) / 2))%R).
  pose proof (COS_bound x).
  set (v := (1 / 2 * (Rtrigo_def.cos x + 1))%R).
  assert (0 <= v <= 1)%R by (unfold v; lra).
  destruct square; simpl; nra.
Qed.

Lemma nth_error_cosinetaper_fin (nmask : Z) (square : bool) (i : Z) :
  nmask <> 1 -> 0 <= i < nmask ->
  nth_error (cosinetaper nmask square) (Z.to_nat i) =
  Some (Fin (cosine_formula nmask square i)).
Proof.
  intros Hn Hi. rewrite nth_error_cosinetaper by exact Hi.
  now rewrite cosine_sample_fin by exact Hn.
Qed.

(** C5: for [nmask >= 2] the result has [nmask] values and the value at
    each index [i] is the one given by the cosine formula, raised to the
    power two when [square] is set and one otherwise. *)
Theorem cosinetaper_formula (nmask : Z) (square : bool) :
  2 <= nmask ->
  Z.of_nat (length (cosinetaper nmask square)) = nmask /\
  (forall i, 0 <= i < nmask ->
     nth_error (cosinetaper nmask square) (Z.to_nat i) =
     Some (Fin (cosine_formula nmask square i))).
Proof.
  intros Hn. split.
  - rewrite length_cosinetaper. lia.
  - intros i Hi. apply nth_error_cosinetaper_fin; lia.
Qed.

Lemma cosinetaper_formula_witness :
  Z.of_nat (length (cosinetaper 5 true)) = 5 /\
  (forall i, 0 <= i < 5 ->
     nth_error (cosinetaper 5 true) (Z.to_nat i) =
     Some (Fin (cosine_formula 5 true i))).
Proof. apply (cosinetaper_formula 5 true). lia. Defined.

(** C6: for [nmask >= 2] the cosine-square taper is the cosine taper
    squared element by element. *)
Theorem cosinetaper_square (nmask : Z) :
  2 <= nmask ->
  Forall2 Float.eq (cosinetaper nmask true)
          (map (fun v => pow v 2) (cosinetaper nmask false)) /\
  (forall i v, nth_error (cosinetaper nmask false) i = Some v ->
               nth_error (cosinetaper nmask true) i = Some (mul v v)).
Proof.
  intros Hn. unfold cosinetaper. split.
  - rewrite map_map.
    induction (np_arange nmask) as [|i l IH]; simpl; constructor; [| exact IH].
    rewrite !cosine_sample_fin by lia. unfold cosine_formula. simpl. ring.
  - intros i v. rewrite !nth_error_map.
    destruct (nth_error (np_arange nmask) i) as [k|]; [| discriminate].
    simpl. intros [= <-]. f_equal.
    unfold cosine_sample. cbn [exponent negb].
    now rewrite pow_one, pow_two.
Qed.

Lemma cosinetaper_square_witness :
  Forall2 Float.eq (cosinetaper 5 true)
          (map (fun v => pow v 2) (cosinetaper 5 false)) /\
  (forall i v, nth_error (cosinetaper 5 false) i = Some v ->
               nth_error (cosinetaper 5 true) i = Some (mul v v)).
Proof. apply (cosinetaper_square 5). lia. Defined.

(** C7: for [nmask >= 2] the cosine taper is symmetric about its centre,
    and for an odd [nmask] the value at the centre index [(nmask-1)/2] is
    exactly one. *)
Theorem cosinetaper_symmetric (nmask : Z) :
  2 <= nmask ->
  (forall i, 0 <= i < nmask ->
     exists r,
       nth_error (cosinetaper nmask false) (Z.to_nat i) = Some (Fin r) /\
       nth_error (cosinetaper nmask false) (Z.to_nat (nmask - 1 - i)) = Some (Fin r)) /\
  (Z.odd nmask = true ->
     nth_error (cosinetaper nmask false) (Z.to_nat ((nmask - 1) / 2)) = Some (Fin 1)).
Proof.
  intros Hn. split.
  - intros i Hi. exists (cosine_formula nmask false i). split.
    + apply nth_error_cosinetaper_fin; lia.
    + rewrite nth_error_cosinetaper_fin by lia.
      now rewrite cosine_formula_symmetric.
  - intros Hodd. rewrite nth_error_cosinetaper_fin.
    + now rewrite cosine_formula_centre.
    + lia.
    + split; [apply Z.div_pos; lia | apply Z.div_lt_upper_bound; lia].
Qed.

Lemma cosinetaper_symmetric_witness :
  (forall i, 0 <= i < 5 ->
     exists r,
       nth_error (cosinetaper 5 false) (Z.to_nat i) = Some (Fin r) /\
       nth_error (cosinetaper 5 false) (Z.to_nat (5 - 1 - i)) = Some (Fin r)) /\
  (Z.odd 5 = true ->
     nth_error (cosinetaper 5 false) (Z.to_nat ((5 - 1) / 2)) = Some (Fin 1)).
Proof. apply (cosinetaper_symmetric 5). lia. Defined.

Lemma Forall_in_unit_cosinetaper (nmask : Z) (square : bool) :
  nmask <> 1 -> Forall in_unit (cosinetaper nmask square).
Proof.
  intros Hn. unfold cosinetaper. apply Forall_map, Forall_forall.
  intros i _. rewrite cosine_sample_fin by exact Hn.
  eexists. split; [reflexivity | apply cosine_formula_unit].
Qed.

(** ** Tiling along a new last axis *)

Lemma np_tile2_newaxis (tpr : list float64) (nt : Z) :
  0 <= nt ->
  np_tile2 (newaxis tpr) (1, nt) = ok (map (fun v => repeat v (Z.to_nat nt)) tpr).
Proof.
  intros Hnt. unfold np_tile2, newaxis.
  destruct (Z.ltb_spec nt 0); [lia |]. cbn [Z.ltb Z.compare orb].
  rewrite tile_axis_one, map_map. f_equal.
  apply map_ext. intros v. apply tile_axis_singleton.
Qed.

Lemma np_tile2_negative {A} (a : list (list A)) (nt : Z) :
  nt < 0 ->
  np_tile2 a (1, nt) = raise (ValueError "repeats may not contain negative values.").
Proof.
  intros Hnt. unfold np_tile2. now destruct (Z.ltb_spec nt 0); [| lia].
Qed.

Lemma np_tile3_newaxis (yx : list (list float64)) (nt : Z) :
  0 <= nt ->
  np_tile3 (newaxis2 yx) (1, nt) =
  ok (map (map (fun v => repeat v (Z.to_nat nt))) yx).
Proof.
  intros Hnt. unfold np_tile3, newaxis2, newaxis. cbn [fst snd].
  destruct (Z.ltb_spec nt 0); [lia |]. cbn [Z.ltb Z.compare orb].
  rewrite tile_axis_one, map_map. f_equal.
  apply map_ext. intros row.
  rewrite tile_axis_one, map_map.
  apply map_ext. intros v. apply tile_axis_singleton.
Qed.

Lemma np_tile3_negative {A} (a : list (list (list A))) (nt : Z) :
  nt < 0 ->
  np_tile3 a (1, nt) = raise (ValueError "repeats may not contain negative values.").
Proof.
  intros Hnt. unfold np_tile3. cbn [fst snd].
  now destruct (Z.ltb_spec nt 0); [| lia].
Qed.

Lemma replicates_repeat (tpr : list float64) (nmask nt : Z) :
  0 <= nt -> Z.of_nat (length tpr) = nmask ->
  replicates (map (fun v => repeat v (Z.to_nat nt)) tpr) tpr nmask nt.
Proof.
  intros Hnt Hlen. repeat split.
  - now rewrite length_map.
  - apply Forall_map, Forall_forall. intros v _.
    rewrite repeat_length. lia.
  - intros j Hj. unfold column. rewrite map_map.
    apply map_ext. intros v. apply nth_error_repeat. lia.
Qed.

Lemma has_shape3_repeat (yx : list (list float64)) (n0 n1 nt : Z) :
  0 <= nt -> has_shape2 yx n0 n1 ->
  has_shape3 (map (map (fun v => repeat v (Z.to_nat nt))) yx) n0 n1 nt.
Proof.
  intros Hnt [H0 H1]. split.
  - now rewrite length_map.
  - apply Forall_map. revert H1. apply Forall_impl. intros row Hrow. split.
    + now rewrite length_map.
    + apply Forall_map, Forall_forall. intros v _.
      rewrite repeat_length. lia.
Qed.

Lemma slice2_repeat (yx : list (list float64)) (nt k : Z) :
  0 <= k < nt ->
  slice2 (Z.to_nat k) (map (map (fun v => repeat v (Z.to_nat nt))) yx) =
  map (map Some) yx.
Proof.
  intros Hk. unfold slice2. rewrite map_map.
  apply map_ext. intros row. rewrite map_map.
  apply map_ext. intros v. apply nth_error_repeat. lia.
Qed.

Lemma has_shape2_np_outer (a b : list float64) :
  has_shape2 (np_outer a b) (Z.of_nat (length a)) (Z.of_nat (length b)).
Proof.
  split.
  - unfold np_outer. now rewrite length_map.
  - apply Forall_map, Forall_forall. intros v _. now rewrite length_map.
Qed.

Lemma Forall_in_unit_np_outer (a b : list float64) :
  Forall in_unit a -> Forall in_unit b -> Forall (Forall in_unit) (np_outer a b).
Proof.
  intros Ha Hb. apply Forall_map. revert Ha. apply Forall_impl. intros x Hx.
  apply Forall_map. revert Hb. apply Forall_impl. intros y Hy.
  now apply in_unit_mul.
Qed.

(** ** What [taper2d] and [taper3d] return *)

Lemma taper2d_returns (nt nmask ntap : Z) (tapertype : option string)
    (plotflag : bool) (log : list plt_call) :
  returns (taper2d nt nmask ntap tapertype plotflag) log =
  (tpr_1d <- selected_1d nmask ntap tapertype ;;
   np_tile2 (newaxis tpr_1d) (1, nt))%result.
Proof.
  unfold returns, taper2d, bind, lift, selected_1d.
  destruct (if is_type tapertype "hanning" then _ else _) as [e | tpr_1d];
    [reflexivity |].
  cbn [rbind]. destruct (np_tile2 (newaxis tpr_1d) (1, nt)); [reflexivity |].
  now destruct plotflag.
Qed.

Lemma taper3d_returns (nt : Z) (nmask ntap : Z * Z) (tapertype : option string)
    (log : list plt_call) :
  returns (taper3d nt nmask ntap tapertype false) log =
  (tpr <- selected_yx nmask ntap tapertype ;;
   np_tile3 (newaxis2 (np_outer (fst tpr) (snd tpr))) (1, nt))%result.
Proof.
  unfold returns, taper3d, bind, lift, selected_yx, selected_1d.
  destruct (is_type tapertype "hanning"); [| destruct (is_type tapertype "cosine");
    [| destruct (is_type tapertype "cosinesquare")]].
  all: cbn [fst snd rbind ok].
  all: repeat match goal with
         | |- context [hanningtaper ?a ?b] => destruct (hanningtaper a b); cbn [rbind ok]
         | |- context [np_ones ?a] => destruct (np_ones a); cbn [rbind ok]
         end; try reflexivity.
  all: cbn [fst snd]; match goal with
         | |- context [np_tile3 ?a ?r] => destruct (np_tile3 a r)
         end; reflexivity.
Qed.

(** With at least one slice along the third axis, the middle slice
    [int(nt/2)] exists. *)
Lemma index_axis2_middle (a : list (list (list float64))) (nt : Z) :
  1 <= nt -> exists img, index_axis2 a nt (Z.quot nt 2) = ok img.
Proof.
  intros Hnt. unfold index_axis2.
  rewrite Z.quot_div_nonneg by lia.
  assert (0 <= nt / 2 < nt) as [Hlo Hhi]
    by (split; [apply Z.div_pos | apply Z.div_lt_upper_bound]; lia).
  destruct (Z.ltb_spec (nt / 2) (- nt)); [lia |].
  destruct (Z.leb_spec nt (nt / 2)); [lia |].
  eexists. reflexivity.
Qed.

(** Plotting does not change what [taper2d] returns. *)
Lemma taper2d_plotflag (nt nmask ntap : Z) (tapertype : option string)
    (log : list plt_call) :
  returns (taper2d nt nmask ntap tapertype true) log =
  returns (taper2d nt nmask ntap tapertype false) log.
Proof. now rewrite !taper2d_returns. Qed.

(** Nor what [taper3d] returns, as long as the third axis is not empty. *)
Lemma taper3d_plotflag (nt : Z) (nmask ntap : Z * Z) (tapertype : option string)
    (log : list plt_call) :
  nt <> 0 ->
  returns (taper3d nt nmask ntap tapertype true) log =
  returns (taper3d nt nmask ntap tapertype false) log.
Proof.
  intros Hnt. unfold returns, taper3d, bind, lift, plt.
  destruct (if is_type tapertype "hanning" then _ else _) as [e | [tpr_y tpr_x]];
    [reflexivity |].
  destruct (Z.lt_ge_cases nt 0) as [Hneg | Hpos].
  - now rewrite np_tile3_negative by exact Hneg.
  - destruct (np_tile3 _ (1, nt)) as [e | tpr_3d]; [reflexivity |].
    destruct (index_axis2_middle tpr_3d nt) as [img ->]; [lia | reflexivity].
Qed.

(** ** [taper2d] *)

Lemma taper2d_replicates (nt nmask ntap : Z) (tapertype : option string)
    (plotflag : bool) (log : list plt_call) (tpr : list float64) :
  0 <= nt ->
  selected_1d nmask ntap tapertype = ok tpr ->
  returns (taper2d nt nmask ntap tapertype plotflag) log =
    ok (map (fun v => repeat v (Z.to_nat nt)) tpr).
Proof.
  intros Hnt Hsel. rewrite taper2d_returns, Hsel. cbn [rbind ok].
  now apply np_tile2_newaxis.
Qed.

(** C4: under the precondition of [hanningtaper], [taper2d] with
    ["hanning"] returns an array of shape [(nmask, nt)] whose every column
    is [hanningtaper(nmask, ntap)]; likewise ["cosine"] and
    ["cosinesquare"] replicate [cosinetaper(nmask, False)] and
    [cosinetaper(nmask, True)]. *)
Theorem taper2d_columns (nt nmask ntap : Z) (plotflag : bool)
    (log : list plt_call) :
  0 <= nt -> 0 < ntap -> 2 <= nmask / ntap ->
  (exists tpr a,
      hanningtaper nmask ntap = ok tpr /\
      returns (taper2d nt nmask ntap (Some "hanning"%string) plotflag) log = ok a /\
      replicates a tpr nmask nt) /\
  (exists a,
      returns (taper2d nt nmask ntap (Some "cosine"%string) plotflag) log = ok a /\
      replicates a (cosinetaper nmask false) nmask nt) /\
  (exists a,
      returns (taper2d nt nmask ntap (Some "cosinesquare"%string) plotflag) log = ok a /\
      replicates a (cosinetaper nmask true) nmask nt).
Proof.
  intros Hnt Hn Hq.
  pose proof (hanning_pre_bounds _ _ Hn Hq) as Hb.
  split; [| split].
  - destruct (hanningtaper_length_unit nmask ntap Hn Hq) as (tpr & Hok & Hlen & _).
    exists tpr. eexists. split; [exact Hok | split].
    + apply taper2d_replicates; [exact Hnt | exact Hok].
    + now apply replicates_repeat.
  - eexists. split.
    + apply taper2d_replicates; [exact Hnt | reflexivity].
    + apply replicates_repeat; [exact Hnt |]. rewrite length_cosinetaper. lia.
  - eexists. split.
    + apply taper2d_replicates; [exact Hnt | reflexivity].
    + apply replicates_repeat; [exact Hnt |]. rewrite length_cosinetaper. lia.
Qed.

Lemma taper2d_columns_witness :
  (exists tpr a,
      hanningtaper 10 3 = ok tpr /\
      returns (taper2d 4 10 3 (Some "hanning"%string) false) [] = ok a /\
      replicates a tpr 10 4) /\
  (exists a,
      returns (taper2d 4 10 3 (Some "cosine"%string) false) [] = ok a /\
      replicates a (cosinetaper 10 false) 10 4) /\
  (exists a,
      returns (taper2d 4 10 3 (Some "cosinesquare"%string) false) [] = ok a /\
      replicates a (cosinetaper 10 true) 10 4).
Proof.
  apply (taper2d_columns 4 10 3 false []); [lia | lia | vm_compute; discriminate].
Defined.

(** ** [taper3d] *)

Lemma taper3d_tiles (nt : Z) (nmask ntap : Z * Z) (tapertype : option string)
    (log : list plt_call) (tpr_y tpr_x : list float64) :
  0 <= nt ->
  selected_yx nmask ntap tapertype = ok (tpr_y, tpr_x) ->
  returns (taper3d nt nmask ntap tapertype false) log =
    ok (map (map (fun v => repeat v (Z.to_nat nt))) (np_outer tpr_y tpr_x)).
Proof.
  intros Hnt Hsel. rewrite taper3d_returns, Hsel. cbn [rbind ok fst snd].
  now apply np_tile3_newaxis.
Qed.

Lemma entry3_repeat_outer (tpr_y tpr_x : list float64) (nt : Z) (y x k : nat)
    (vy vx : float64) :
  nth_error tpr_y y = Some vy -> nth_error tpr_x x = Some vx ->
  (k < Z.to_nat nt)%nat ->
  entry3 (map (map (fun v => repeat v (Z.to_nat nt))) (np_outer tpr_y tpr_x)) y x k
  = Some (mul vy vx).
Proof.
  intros Hy Hx Hk. unfold entry3, np_outer.
  rewrite !nth_error_map, Hy. cbn [option_map].
  rewrite !nth_error_map, Hx. cbn [option_map].
  now apply nth_error_repeat.
Qed.

(** C3: under the precondition of [hanningtaper] on each axis, [taper3d]
    with ["hanning"] returns an array of shape [(my, mx, nt)] whose slice
    at every index [k] of the third axis is the outer product of
    [hanningtaper(my, ty)] and [hanningtaper(mx, tx)]: entry [(y, x, k)]
    is [taper_y[y] * taper_x[x]], whatever [k]. *)
Theorem taper3d_outer (nt my mx ty tx : Z) (log : list plt_call) :
  0 <= nt -> hanning_pre my ty -> hanning_pre mx tx ->
  exists tpr_y tpr_x a,
    hanningtaper my ty = ok tpr_y /\
    hanningtaper mx tx = ok tpr_x /\
    returns (taper3d nt (my, mx) (ty, tx) (Some "hanning"%string) false) log = ok a /\
    has_shape3 a my mx nt /\
    (forall k, 0 <= k < nt ->
       slice2 (Z.to_nat k) a = map (map Some) (np_outer tpr_y tpr_x)) /\
    (forall y x k vy vx,
       nth_error tpr_y y = Some vy -> nth_error tpr_x x = Some vx ->
       (k < Z.to_nat nt)%nat ->
       entry3 a y x k = Some (mul vy vx)).
Proof.
  intros Hnt [Hy Hqy] [Hx Hqx].
  destruct (hanningtaper_length_unit my ty Hy Hqy) as (tpr_y & Hoky & Hleny & _).
  destruct (hanningtaper_length_unit mx tx Hx Hqx) as (tpr_x & Hokx & Hlenx & _).
  exists tpr_y, tpr_x. eexists.
  split; [exact Hoky | split; [exact Hokx | split; [| split; [| split]]]].
  - apply taper3d_tiles; [exact Hnt |].
    unfold selected_yx, selected_1d. cbn [is_type String.eqb Ascii.eqb Bool.eqb fst snd].
    now rewrite Hoky, Hokx.
  - apply has_shape3_repeat; [exact Hnt |].
    rewrite <- Hleny, <- Hlenx. apply has_shape2_np_outer.
  - intros k Hk. now apply slice2_repeat.
  - intros y x k vy vx. apply entry3_repeat_outer.
Qed.

Lemma taper3d_outer_witness :
  exists tpr_y tpr_x a,
    hanningtaper 10 3 = ok tpr_y /\
    hanningtaper 8 2 = ok tpr_x /\
    returns (taper3d 4 (10, 8) (3, 2) (Some "hanning"%string) false) [] = ok a /\
    has_shape3 a 10 8 4 /\
    (forall k, 0 <= k < 4 ->
       slice2 (Z.to_nat k) a = map (map Some) (np_outer tpr_y tpr_x)) /\
    (forall y x k vy vx,
       nth_error tpr_y y = Some vy -> nth_error tpr_x x = Some vx ->
       (k < Z.to_nat 4)%nat ->
       entry3 a y x k = Some (mul vy vx)).
Proof.
  apply (taper3d_outer 4 10 8 3 2 []);
    [lia | split; [lia | vm_compute; discriminate]
         | split; [lia | vm_compute; discriminate]].
Defined.

(** ** Range of the values *)

Lemma Forall_in_unit_repeat_one (n : nat) : Forall in_unit (repeat one n).
Proof.
  apply Forall_forall. intros v Hv.
  rewrite (repeat_spec _ _ _ Hv). apply in_unit_one.
Qed.

Lemma selected_1d_unit (nmask ntap : Z) (tapertype : option string) :
  taper_pre tapertype nmask ntap ->
  exists tpr, selected_1d nmask ntap tapertype = ok tpr /\ Forall in_unit tpr.
Proof.
  unfold taper_pre, selected_1d.
  destruct (is_type tapertype "hanning").
  - intros [Hn Hq].
    destruct (hanningtaper_length_unit nmask ntap Hn Hq) as (tpr & Hok & _ & Hu).
    now exists tpr.
  - destruct (is_type tapertype "cosine"); cbn [orb].
    + intros Hm. eexists. split; [reflexivity |].
      apply Forall_in_unit_cosinetaper. lia.
    + destruct (is_type tapertype "cosinesquare").
      * intros Hm. eexists. split; [reflexivity |].
        apply Forall_in_unit_cosinetaper. lia.
      * intros Hm. unfold np_ones.
        destruct (Z.ltb_spec nmask 0); [lia |].
        eexists. split; [reflexivity | apply Forall_in_unit_repeat_one].
Qed.

Lemma Forall_repeat {A} (P : A -> Prop) (v : A) (n : nat) :
  P v -> Forall P (repeat v n).
Proof.
  intros Hv. apply Forall_forall. intros u Hu.
  now rewrite (repeat_spec _ _ _ Hu).
Qed.

(** An array returned with plotting is also returned without. *)
Lemma taper3d_plot_returns (nt : Z) (nmask ntap : Z * Z)
    (tapertype : option string) (log : list plt_call)
    (a : list (list (list float64))) :
  returns (taper3d nt nmask ntap tapertype true) log = ok a ->
  returns (taper3d nt nmask ntap tapertype false) log = ok a.
Proof.
  unfold returns, taper3d, bind, lift, plt.
  destruct (if is_type tapertype "hanning" then _ else _) as [e | [tpr_y tpr_x]];
    [intros H; exact H |].
  destruct (np_tile3 _ (1, nt)) as [e | tpr_3d]; [intros H; exact H |].
  destruct (index_axis2 tpr_3d nt (Z.quot nt 2)) as [e | img];
    [discriminate | intros H; exact H].
Qed.

Lemma taper2d_returned (nt nmask ntap : Z) (tapertype : option string)
    (plotflag : bool) (log : list plt_call) (a : list (list float64)) :
  returns (taper2d nt nmask ntap tapertype plotflag) log = ok a ->
  exists tpr,
    selected_1d nmask ntap tapertype = ok tpr /\
    a = map (fun v => repeat v (Z.to_nat nt)) tpr.
Proof.
  rewrite taper2d_returns.
  destruct (selected_1d nmask ntap tapertype) as [e | tpr]; [discriminate |].
  cbn [rbind]. intros H. exists tpr. split; [reflexivity |].
  destruct (Z.lt_ge_cases nt 0) as [Hneg | Hpos].
  - rewrite np_tile2_negative in H by exact Hneg. discriminate.
  - rewrite np_tile2_newaxis in H by exact Hpos. now injection H.
Qed.

Lemma taper3d_returned (nt : Z) (nmask ntap : Z * Z) (tapertype : option string)
    (plotflag : bool) (log : list plt_call) (a : list (list (list float64))) :
  returns (taper3d nt nmask ntap tapertype plotflag) log = ok a ->
  exists tpr_y tpr_x,
    selected_yx nmask ntap tapertype = ok (tpr_y, tpr_x) /\
    a = map (map (fun v => repeat v (Z.to_nat nt))) (np_outer tpr_y tpr_x).
Proof.
  intros H.
  assert (returns (taper3d nt nmask ntap tapertype false) log = ok a) as H'
    by (destruct plotflag; [now apply taper3d_plot_returns | exact H]).
  clear H. rewrite taper3d_returns in H'.
  destruct (selected_yx nmask ntap tapertype) as [e | [tpr_y tpr_x]];
    [discriminate |].
  cbn [rbind fst snd] in H'. exists tpr_y, tpr_x. split; [reflexivity |].
  destruct (Z.lt_ge_cases nt 0) as [Hneg | Hpos].
  - rewrite np_tile3_negative in H' by exact Hneg. discriminate.
  - rewrite np_tile3_newaxis in H' by exact Hpos. now injection H'.
Qed.

(** C8: every value of every array returned by [hanningtaper],
    [cosinetaper], [taper2d] and [taper3d], under the precondition of each
    (two samples or more for the cosine tapers), lies in [[0, 1]]; and
    under these preconditions an array is returned. *)
Theorem taper_values_in_unit :
  (forall nmask ntap,
      hanning_pre nmask ntap ->
      exists tpr, hanningtaper nmask ntap = ok tpr /\ Forall in_unit tpr) /\
  (forall nmask square,
      2 <= nmask -> Forall in_unit (cosinetaper nmask square)) /\
  (forall nt nmask ntap tapertype plotflag log,
      taper_pre tapertype nmask ntap ->
      (0 <= nt ->
       exists a, returns (taper2d nt nmask ntap tapertype plotflag) log = ok a) /\
      (forall a,
          returns (taper2d nt nmask ntap tapertype plotflag) log = ok a ->
          Forall (Forall in_unit) a)) /\
  (forall nt nmask ntap tapertype plotflag log,
      taper_pre tapertype (fst nmask) (fst ntap) ->
      taper_pre tapertype (snd nmask) (snd ntap) ->
      (0 <= nt -> (plotflag = true -> nt <> 0) ->
       exists a, returns (taper3d nt nmask ntap tapertype plotflag) log = ok a) /\
      (forall a,
          returns (taper3d nt nmask ntap tapertype plotflag) log = ok a ->
          Forall (Forall (Forall in_unit)) a)).
Proof.
  split; [| split; [| split]].
  - intros nmask ntap [Hn Hq].
    destruct (hanningtaper_length_unit nmask ntap Hn Hq) as (tpr & Hok & _ & Hu).
    now exists tpr.
  - intros nmask square Hm. apply Forall_in_unit_cosinetaper. lia.
  - intros nt nmask ntap tapertype plotflag log Hpre.
    destruct (selected_1d_unit _ _ _ Hpre) as (tpr & Hsel & Hu). split.
    + intros Hnt. eexists.
      apply taper2d_replicates; [exact Hnt | exact Hsel].
    + intros a Ha. apply taper2d_returned in Ha.
      destruct Ha as (tpr' & Hsel' & ->).
      rewrite Hsel in Hsel'. injection Hsel' as <-.
      apply Forall_map. revert Hu. apply Forall_impl.
      intros v Hv. now apply Forall_repeat.
  - intros nt nmask ntap tapertype plotflag log Hprey Hprex.
    destruct (selected_1d_unit _ _ _ Hprey) as (tpr_y & Hsely & Huy).
    destruct (selected_1d_unit _ _ _ Hprex) as (tpr_x & Hselx & Hux).
    assert (selected_yx nmask ntap tapertype = ok (tpr_y, tpr_x)) as Hsel
      by (unfold selected_yx; now rewrite Hsely, Hselx).
    split.
    + intros Hnt Hplot. eexists.
      assert (returns (taper3d nt nmask ntap tapertype plotflag) log =
              returns (taper3d nt nmask ntap tapertype false) log) as ->
        by (destruct plotflag;
            [apply taper3d_plotflag; now apply Hplot | reflexivity]).
      apply taper3d_tiles; [exact Hnt | exact Hsel].
    + intros a Ha. apply taper3d_returned in Ha.
      destruct Ha as (tpr_y' & tpr_x' & Hsel' & ->).
      rewrite Hsel in Hsel'. injection Hsel' as <- <-.
      apply Forall_map.
      generalize (Forall_in_unit_np_outer _ _ Huy Hux). apply Forall_impl.
      intros row Hrow. apply Forall_map. revert Hrow. apply Forall_impl.
      intros v Hv. now apply Forall_repeat.
Qed.

Lemma taper_values_in_unit_witness :
  (exists tpr, hanningtaper 10 3 = ok tpr /\ Forall in_unit tpr) /\
  Forall in_unit (cosinetaper 5 true) /\
  (exists a, returns (taper2d 4 5 0 (Some "cosine"%string) true) [] = ok a) /\
  (forall a, returns (taper2d 4 5 0 (Some "cosine"%string) true) [] = ok a ->
             Forall (Forall in_unit) a) /\
  (exists a,
      returns (taper3d 4 (10, 8) (3, 2) (Some "hanning"%string) true) [] = ok a) /\
  (forall a,
      returns (taper3d 4 (10, 8) (3, 2) (Some "hanning"%string) true) [] = ok a ->
      Forall (Forall (Forall in_unit)) a).
Proof.
  destruct taper_values_in_unit as (H1 & H2 & H3 & H4).
  assert (taper_pre (Some "cosine"%string) 5 0) as P2
    by (vm_compute; discriminate).
  assert (hanning_pre 10 3) as Py by (split; [lia | vm_compute; discriminate]).
  assert (hanning_pre 8 2) as Px by (split; [lia | vm_compute; discriminate]).
  destruct (H3 4 5 0 (Some "cosine"%string) true [] P2) as [E2 U2].
  destruct (H4 4 (10, 8) (3, 2) (Some "hanning"%string) true [] Py Px) as [E3 U3].
  split; [apply (H1 10 3); exact Py |].
  split; [apply (H2 5 true); lia |].
  split; [apply E2; lia |].
  split; [exact U2 |].
  split; [apply E3; [lia | intros _; lia] | exact U3].
Defined.

(** ** The plotting flag *)

(** C9 fails on [taper3d] when the third axis is empty: with [nt = 0] the
    call without plotting returns an array of shape [(2, 2, 0)], while the
    call with plotting raises [IndexError] on the middle slice. *)
Theorem taper3d_plot_empty_axis :
  returns (taper3d 0 (2, 2) (1, 1) (Some "hanning"%string) false) [] =
    ok [[[]; []]; [[]; []]] /\
  returns (taper3d 0 (2, 2) (1, 1) (Some "hanning"%string) true) [] =
    raise (IndexError "index 0 is out of bounds for axis 2 with size 0").
Proof. split; reflexivity. Qed.


(** * Further properties of the code *)

(** ** [hanningtaper]: success, negative widths, symmetry, edges *)

Lemma hanningtaper_guard (nmask ntap : Z) :
  (0 <? ntap) && (nmask / ntap <? 2) = true <-> 0 < ntap /\ nmask < 2 * ntap.
Proof.
  rewrite andb_true_iff, Z.ltb_lt, Z.ltb_lt. split.
  - intros [Hn Hq]. split; [exact Hn |].
    destruct (Z.lt_ge_cases nmask (2 * ntap)) as [H | H]; [exact H |].
    assert (2 <= nmask / ntap) by (apply Z.div_le_lower_bound; lia). lia.
  - intros [Hn Hm]. split; [exact Hn |].
    apply Z.div_lt_upper_bound; lia.
Qed.

(** X1: [hanningtaper] returns an array exactly when [2*ntap <= nmask],
    whatever the signs, and raises, returning nothing, exactly when
    [nmask < 2*ntap]. *)
Theorem hanningtaper_succeeds_iff (nmask ntap : Z) :
  ((exists tpr, hanningtaper nmask ntap = ok tpr) <-> 2 * ntap <= nmask) /\
  ((exists e, hanningtaper nmask ntap = raise e) <-> nmask < 2 * ntap).
Proof.
  pose proof (hanningtaper_guard nmask ntap) as Hg.
  unfold hanningtaper, np_ones.
  destruct ((0 <? ntap) && (nmask / ntap <? 2)) eqn:Eg.
  - destruct (proj1 Hg eq_refl) as [Hn Hm].
    destruct (ntap_min nmask) as [e | m]; cbn [rbind raise]; split; split.
    + intros [tpr H]. discriminate.
    + lia.
    + intros _. exact Hm.
    + intros _. eexists. reflexivity.
    + intros [tpr H]. discriminate.
    + lia.
    + intros _. exact Hm.
    + intros _. eexists. reflexivity.
  - assert (~ (0 < ntap /\ nmask < 2 * ntap)) as Hng
      by (intros H; apply Hg in H; discriminate).
    destruct (Z.ltb_spec (nmask - 2 * ntap) 0) as [Hlt | Hge];
      cbn [rbind raise ok]; split; split.
    + intros [tpr H]. discriminate.
    + lia.
    + intros _. lia.
    + intros _. eexists. reflexivity.
    + intros _. lia.
    + intros _. eexists. reflexivity.
    + intros [e H]. discriminate.
    + lia.
Qed.

(** X2: a negative width is not rejected: when [2*ntap <= nmask] the
    result is [nmask - 2*ntap] ones, more values than [nmask]. *)
Theorem hanningtaper_negative_ntap (nmask ntap : Z) :
  ntap < 0 -> 2 * ntap <= nmask ->
  hanningtaper nmask ntap = ok (repeat one (Z.to_nat (nmask - 2 * ntap))) /\
  nmask < Z.of_nat (length (repeat one (Z.to_nat (nmask - 2 * ntap)))).
Proof.
  intros Hn Hm. split.
  - rewrite hanningtaper_unfold; [| | lia].
    + assert (np_hanning (ntap * 2 - 1) = []) as ->
        by (unfold np_hanning; destruct (Z.ltb_spec (ntap * 2 - 1) 1); [reflexivity | lia]).
      rewrite slice_to_nil. unfold np_concatenate, np_flipud. simpl.
      now rewrite app_nil_r.
    + destruct (Z.ltb_spec 0 ntap); [lia | reflexivity].
  - rewrite repeat_length. lia.
Qed.

Lemma hanningtaper_negative_ntap_witness :
  hanningtaper 5 (-2) = ok (repeat one (Z.to_nat (5 - 2 * (-2)))) /\
  5 < Z.of_nat (length (repeat one (Z.to_nat (5 - 2 * (-2))))).
Proof. apply (hanningtaper_negative_ntap 5 (-2)); lia. Defined.

Lemma rev_repeat_same {A} (v : A) (n : nat) : rev (repeat v n) = repeat v n.
Proof.
  induction n as [|n IH]; [reflexivity |].
  simpl. rewrite IH. symmetry. apply repeat_cons.
Qed.

(** X3: every array returned by [hanningtaper] reads the same in both
    directions. *)
Theorem hanningtaper_palindrome (nmask ntap : Z) (tpr : list float64) :
  hanningtaper nmask ntap = ok tpr -> rev tpr = tpr.
Proof.
  unfold hanningtaper, np_ones.
  destruct ((0 <? ntap) && (nmask / ntap <? 2));
    [destruct (ntap_min nmask); discriminate |].
  destruct (nmask - 2 * ntap <? 0); [discriminate |].
  cbn [rbind ok].
  set (st_tpr := slice_to (np_hanning (ntap * 2 - 1)) ntap).
  set (m := Z.to_nat (nmask - 2 * ntap)).
  intros H. assert (tpr = st_tpr ++ repeat one m ++ rev st_tpr) as ->
    by (rewrite <- taper_eq; now injection H).
  rewrite !rev_app_distr, rev_involutive, rev_repeat_same.
  now rewrite app_assoc.
Qed.

Lemma hanningtaper_palindrome_witness :
  let tpr :=
    [hanning_sample 5 0; hanning_sample 5 1; hanning_sample 5 2;
     one; one; one; one;
     hanning_sample 5 2; hanning_sample 5 1; hanning_sample 5 0] in
  hanningtaper 10 3 = ok tpr /\ rev tpr = tpr.
Proof.
  intros tpr.
  assert (hanningtaper 10 3 = ok tpr) as H by reflexivity.
  split; [exact H | exact (hanningtaper_palindrome 10 3 tpr H)].
Defined.

(** The samples of the rising edge, for a width of two or more. *)
Lemma nth_error_rising_edge (ntap i : Z) :
  2 <= ntap -> 0 <= i < ntap ->
  nth_error (slice_to (np_hanning (ntap * 2 - 1)) ntap) (Z.to_nat i) =
  Some (Fin (1 / 2 - 1 / 2 * Rtrigo_def.cos (PI * (IZR i / (IZR ntap - 1))))).
Proof.
  intros Hn Hi. rewrite slice_to_firstn by lia.
  rewrite nth_error_firstn.
  destruct (Nat.ltb_spec (Z.to_nat i) (Z.to_nat ntap)); [| lia].
  unfold np_hanning.
  destruct (Z.ltb_spec (ntap * 2 - 1) 1); [lia |].
  destruct (Z.eqb_spec (ntap * 2 - 1) 1); [lia |].
  rewrite nth_error_map, nth_error_np_arange by lia. cbn [option_map].
  rewrite Z2Nat.id, hanning_sample_fin by lia.
  assert (IZR ntap - 1 <> 0)%R as Hd by (apply IZR_le in Hn; lra).
  replace (2 * PI * IZR i / IZR (ntap * 2 - 1 - 1))%R
    with (PI * (IZR i / (IZR ntap - 1)))%R; [reflexivity |].
  replace (ntap * 2 - 1 - 1) with (2 * (ntap - 1)) by lia.
  rewrite mult_IZR, minus_IZR. field. exact Hd.
Qed.

Lemma mirrored_index {A} (l : list A) (i : nat) :
  rev l = l -> (i < length l)%nat ->
  nth_error l (length l - 1 - i) = nth_error l i.
Proof.
  intros Hrev Hi.
  transitivity (nth_error (rev l) i); [| now rewrite Hrev].
  rewrite nth_error_rev.
  destruct (Nat.ltb_spec i (length l)); [| lia].
  f_equal. lia.
Qed.

Lemma taper_palindrome {A} (edge : list A) (m : nat) (x : A) :
  rev (edge ++ repeat x m ++ rev edge) = edge ++ repeat x m ++ rev edge.
Proof.
  rewrite !rev_app_distr, rev_involutive, rev_repeat_same.
  now rewrite app_assoc.
Qed.

(** The value of a valid taper at an index [i] of the rising edge, and at
    the mirrored index of the falling edge. *)
Lemma hanningtaper_edge_values (nmask ntap : Z) :
  2 <= ntap -> 2 <= nmask / ntap ->
  exists tpr,
    hanningtaper nmask ntap = ok tpr /\
    forall i, 0 <= i < ntap ->
      nth_error tpr (Z.to_nat i) =
        Some (Fin (1 / 2 - 1 / 2 * Rtrigo_def.cos (PI * (IZR i / (IZR ntap - 1))))) /\
      nth_error tpr (Z.to_nat (nmask - 1 - i)) = nth_error tpr (Z.to_nat i).
Proof.
  intros Hn Hq.
  assert (0 < ntap) as Hn0 by lia.
  pose proof (hanning_pre_bounds _ _ Hn0 Hq) as Hb.
  destruct (rising_edge ntap Hn0) as (Hlen & _ & _).
  eexists. split.
  { apply hanningtaper_unfold; [| lia].
    destruct (Z.ltb_spec (nmask / ntap) 2); [lia | apply andb_false_r]. }
  set (st_tpr := slice_to (np_hanning (ntap * 2 - 1)) ntap) in *.
  set (m := Z.to_nat (nmask - 2 * ntap)).
  rewrite taper_eq.
  assert (length (st_tpr ++ repeat one m ++ rev st_tpr) = Z.to_nat nmask) as Hl.
  { rewrite !length_app, repeat_length, length_rev, Hlen. unfold m. lia. }
  intros i Hi. split.
  - rewrite nth_error_app1 by lia.
    now apply nth_error_rising_edge.
  - replace (Z.to_nat (nmask - 1 - i))
      with (length (st_tpr ++ repeat one m ++ rev st_tpr) - 1 - Z.to_nat i)%nat
      by lia.
    apply mirrored_index; [apply taper_palindrome | lia].
Qed.

(** X4: the last sample of the rising edge, at index [ntap-1], and the
    first sample of the falling edge, at index [nmask-ntap], are already
    one: the window of [2*ntap-1] points peaks there. *)
Theorem hanningtaper_edge_peak (nmask ntap : Z) :
  0 < ntap -> 2 <= nmask / ntap ->
  exists tpr,
    hanningtaper nmask ntap = ok tpr /\
    nth_error tpr (Z.to_nat (ntap - 1)) = Some (Fin 1) /\
    nth_error tpr (Z.to_nat (nmask - ntap)) = Some (Fin 1).
Proof.
  intros Hn Hq.
  pose proof (hanning_pre_bounds _ _ Hn Hq) as Hb.
  destruct (Z.eq_dec ntap 1) as [-> | Hne].
  - eexists. split; [| split].
    + apply hanningtaper_unfold; [| lia].
      destruct (Z.ltb_spec (nmask / 1) 2); [lia | reflexivity].
    + reflexivity.
    + change (slice_to (np_hanning (1 * 2 - 1)) 1) with [one].
      rewrite taper_eq.
      rewrite nth_error_app2 by (simpl; lia).
      rewrite nth_error_app2 by (rewrite repeat_length; simpl; lia).
      rewrite repeat_length. cbn [length].
      replace (Z.to_nat (nmask - 1) - 1 - Z.to_nat (nmask - 2 * 1))%nat
        with 0%nat by lia.
      reflexivity.
  - destruct (hanningtaper_edge_values nmask ntap) as (tpr & Hok & Hv);
      [lia | exact Hq |].
    exists tpr. split; [exact Hok |].
    destruct (Hv (ntap - 1)) as [Hrise Hfall]; [lia |].
    assert (Fin (1 / 2 - 1 / 2 * Rtrigo_def.cos (PI * (IZR (ntap - 1) / (IZR ntap - 1))))
            = Fin 1) as Hpeak.
    { f_equal. rewrite minus_IZR.
      assert (IZR ntap - 1 <> 0)%R
        by (assert (2 <= ntap) as H2 by lia; apply IZR_le in H2; lra).
      replace (PI * ((IZR ntap - 1) / (IZR ntap - 1)))%R with PI by (field; assumption).
      rewrite cos_PI. lra. }
    split.
    + now rewrite Hrise, Hpeak.
    + replace (nmask - ntap) with (nmask - 1 - (ntap - 1)) by lia.
      now rewrite Hfall, Hrise, Hpeak.
Qed.

Lemma hanningtaper_edge_peak_witness :
  exists tpr,
    hanningtaper 10 3 = ok tpr /\
    nth_error tpr (Z.to_nat (3 - 1)) = Some (Fin 1) /\
    nth_error tpr (Z.to_nat (10 - 3)) = Some (Fin 1).
Proof. apply (hanningtaper_edge_peak 10 3); [lia | vm_compute; discriminate]. Defined.

Lemma hanning_angle (ntap i : Z) :
  2 <= ntap -> 0 <= i < ntap ->
  (0 <= PI * (IZR i / (IZR ntap - 1)) <= PI)%R.
Proof.
  intros Hn [Hlo Hhi].
  apply IZR_le in Hn. apply IZR_le in Hlo.
  assert (i <= ntap - 1) as Hhi' by lia.
  apply IZR_le in Hhi'. rewrite minus_IZR in Hhi'.
  pose proof PI_RGT_0 as Hpi.
  assert (0 < IZR ntap - 1)%R as Hd by lra.
  assert (0 <= IZR i / (IZR ntap - 1) <= 1)%R as [H0 H1].
  { split.
    - apply Rmult_le_pos; [exact Hlo | left; now apply Rinv_0_lt_compat].
    - apply (Rmult_le_reg_r (IZR ntap - 1)); [exact Hd |].
      unfold Rdiv. rewrite Rmult_assoc, Rinv_l by lra. lra. }
  split; nra.
Qed.

(** X5: the rising edge never decreases, and the falling edge mirrors it. *)
Theorem hanningtaper_edge_monotone (nmask ntap : Z) :
  2 <= ntap -> 2 <= nmask / ntap ->
  exists tpr,
    hanningtaper nmask ntap = ok tpr /\
    forall i j, 0 <= i -> i <= j -> j < ntap ->
      exists a b,
        nth_error tpr (Z.to_nat i) = Some (Fin a) /\
        nth_error tpr (Z.to_nat j) = Some (Fin b) /\
        nth_error tpr (Z.to_nat (nmask - 1 - i)) = Some (Fin a) /\
        nth_error tpr (Z.to_nat (nmask - 1 - j)) = Some (Fin b) /\
        (a <= b)%R.
Proof.
  intros Hn Hq.
  destruct (hanningtaper_edge_values nmask ntap Hn Hq) as (tpr & Hok & Hv).
  exists tpr. split; [exact Hok |].
  intros i j Hi Hij Hj.
  destruct (Hv i) as [Hri Hfi]; [lia |].
  destruct (Hv j) as [Hrj Hfj]; [lia |].
  do 2 eexists.
  split; [exact Hri | split; [exact Hrj | split; [| split]]].
  - now rewrite Hfi.
  - now rewrite Hfj.
  - destruct (hanning_angle ntap i) as [Hi0 Hi1]; [lia | lia |].
    destruct (hanning_angle ntap j) as [Hj0 Hj1]; [lia | lia |].
    assert (PI * (IZR i / (IZR ntap - 1)) <= PI * (IZR j / (IZR ntap - 1)))%R as Hle.
    { apply Rmult_le_compat_l; [left; exact PI_RGT_0 |].
      apply Rmult_le_compat_r.
      - left. apply Rinv_0_lt_compat. apply IZR_le in Hn. lra.
      - now apply IZR_le. }
    pose proof (cos_decr_1 _ _ Hi0 Hi1 Hj0 Hj1 Hle). lra.
Qed.

Lemma hanningtaper_edge_monotone_witness :
  exists tpr,
    hanningtaper 10 3 = ok tpr /\
    forall i j, 0 <= i -> i <= j -> j < 3 ->
      exists a b,
        nth_error tpr (Z.to_nat i) = Some (Fin a) /\
        nth_error tpr (Z.to_nat j) = Some (Fin b) /\
        nth_error tpr (Z.to_nat (10 - 1 - i)) = Some (Fin a) /\
        nth_error tpr (Z.to_nat (10 - 1 - j)) = Some (Fin b) /\
        (a <= b)%R.
Proof. apply (hanningtaper_edge_monotone 10 3); [lia | vm_compute; discriminate]. Defined.

(** ** [cosinetaper]: end points, squaring, degenerate lengths *)

Lemma cosine_formula_first (nmask : Z) (square : bool) :
  nmask <> 1 -> cosine_formula nmask square 0 = 0%R.
Proof.
  intros Hn. unfold cosine_formula.
  assert ((IZR nmask - 1) / 2 <> 0)%R as Hc.
  { assert (IZR (nmask - 1) <> 0)%R as H by (apply not_0_IZR; lia).
    rewrite minus_IZR in H. lra. }
  replace ((0 - (IZR nmask - 1) / 2) * PI / ((IZR nmask - 1) / 2))%R
    with (- PI)%R by (field; lra).
  rewrite cos_neg, cos_PI.
  destruct square; simpl; lra.
Qed.

(** X6: from two samples on, the first and the last value of a cosine or
    cosine-square taper are zero. *)
Theorem cosinetaper_end_points (nmask : Z) (square : bool) :
  2 <= nmask ->
  nth_error (cosinetaper nmask square) 0 = Some (Fin 0) /\
  nth_error (cosinetaper nmask square) (Z.to_nat (nmask - 1)) = Some (Fin 0).
Proof.
  intros Hn. split.
  - change 0%nat with (Z.to_nat 0).
    rewrite nth_error_cosinetaper_fin by lia.
    now rewrite cosine_formula_first by lia.
  - rewrite nth_error_cosinetaper_fin by lia.
    replace (nmask - 1) with (nmask - 1 - 0) by lia.
    rewrite cosine_formula_symmetric.
    now rewrite cosine_formula_first by lia.
Qed.

Lemma cosinetaper_end_points_witness :
  nth_error (cosinetaper 5 false) 0 = Some (Fin 0) /\
  nth_error (cosinetaper 5 false) (Z.to_nat (5 - 1)) = Some (Fin 0).
Proof. apply (cosinetaper_end_points 5 false). lia. Defined.

(** X7: the cosine-square taper lies below the cosine taper at every
    index. *)
Theorem cosinetaper_square_below (nmask i : Z) :
  2 <= nmask -> 0 <= i < nmask ->
  exists a b,
    nth_error (cosinetaper nmask false) (Z.to_nat i) = Some (Fin a) /\
    nth_error (cosinetaper nmask true) (Z.to_nat i) = Some (Fin b) /\
    (0 <= b <= a)%R.
Proof.
  intros Hn Hi. do 2 eexists.
  split; [apply nth_error_cosinetaper_fin; lia |].
  split; [apply nth_error_cosinetaper_fin; lia |].
  pose proof (cosine_formula_unit nmask false i) as Hu.
  unfold cosine_formula in *.
  set (v := (1 / 2 * (Rtrigo_def.cos _ + 1))%R) in *.
  simpl in *. nra.
Qed.

Lemma cosinetaper_square_below_witness :
  exists a b,
    nth_error (cosinetaper 5 false) (Z.to_nat 1) = Some (Fin a) /\
    nth_error (cosinetaper 5 true) (Z.to_nat 1) = Some (Fin b) /\
    (0 <= b <= a)%R.
Proof. apply (cosinetaper_square_below 5 1); lia. Defined.

(** X8: with a single sample the centring term is [0/0]: [taper2d] with
    a cosine or cosine-square taper then returns a row of NaN, without
    raising. *)
Theorem taper2d_single_sample_cosine (nt ntap : Z) (square plotflag : bool)
    (log : list plt_call) :
  0 <= nt ->
  returns (taper2d nt 1 ntap
             (Some (if square then "cosinesquare" else "cosine")%string)
             plotflag) log
  = ok [repeat NaN (Z.to_nat nt)].
Proof.
  intros Hnt.
  rewrite (taper2d_replicates nt 1 ntap _ plotflag log (cosinetaper 1 square) Hnt).
  - now rewrite cosinetaper_one_sample.
  - now destruct square.
Qed.

Lemma taper2d_single_sample_cosine_witness :
  returns (taper2d 3 1 0 (Some "cosine"%string) false) [] = ok [repeat NaN (Z.to_nat 3)].
Proof. apply (taper2d_single_sample_cosine 3 0 false false []). lia. Defined.



(** ** [taper2d] and [taper3d]: the whole run, result and plotting log *)

Lemma taper2d_run (nt nmask ntap : Z) (tapertype : option string)
    (plotflag : bool) (log : list plt_call) :
  taper2d nt nmask ntap tapertype plotflag log =
  match selected_1d nmask ntap tapertype with
  | inl e => (inl e, log)
  | inr tpr_1d =>
      match np_tile2 (newaxis tpr_1d) (1, nt) with
      | inl e => (inl e, log)
      | inr tpr_2d =>
          (ok tpr_2d,
           if plotflag
           then log ++ [Figure 7 3; Plot tpr_1d "k" 2; Title "Taper"]
           else log)
      end
  end.
Proof.
  unfold taper2d, bind, lift, plt, ret, selected_1d.
  destruct (if is_type tapertype "hanning" then _ else _) as [e | tpr_1d];
    [reflexivity |].
  destruct (np_tile2 (newaxis tpr_1d) (1, nt)) as [e | tpr_2d]; [reflexivity |].
  destruct plotflag; [| reflexivity].
  now rewrite <- !app_assoc.
Qed.

Lemma taper3d_run (nt : Z) (nmask ntap : Z * Z) (tapertype : option string)
    (plotflag : bool) (log : list plt_call) :
  taper3d nt nmask ntap tapertype plotflag log =
  match selected_yx nmask ntap tapertype with
  | inl e => (inl e, log)
  | inr (tpr_y, tpr_x) =>
      match np_tile3 (newaxis2 (np_outer tpr_y tpr_x)) (1, nt) with
      | inl e => (inl e, log)
      | inr tpr_3d =>
          if plotflag then
            match index_axis2 tpr_3d nt (Z.quot nt 2) with
            | inl e => (inl e, log ++ [Figure 7 3])
            | inr img =>
                (ok tpr_3d,
                 log ++ [Figure 7 3; Imshow img "jet";
                         Title "Taper in y-x slice"; Xlabel "x"; Ylabel "y"])
            end
          else (ok tpr_3d, log)
      end
  end.
Proof.
  assert (forall r : result (list float64 * list float64),
    (let '(tpr_y, tpr_x) := (fst nmask, snd nmask) in
     let '(_, _) := (fst ntap, snd ntap) in
     bind (lift r) (fun tpr =>
       let '(tpr_y, tpr_x) := tpr in
       let tpr_yx := np_outer tpr_y tpr_x in
       bind (lift (np_tile3 (newaxis2 tpr_yx) (1, nt))) (fun tpr_3d =>
         bind (if plotflag then
                 bind (plt (Figure 7 3)) (fun _ =>
                 bind (lift (index_axis2 tpr_3d nt (Z.quot nt 2))) (fun img =>
                 bind (plt (Imshow img "jet")) (fun _ =>
                 bind (plt (Title "Taper in y-x slice")) (fun _ =>
                 bind (plt (Xlabel "x")) (fun _ => plt (Ylabel "y"))))))
               else ret tt)
              (fun _ => ret tpr_3d)))) log =
    match r with
    | inl e => (inl e, log)
    | inr (tpr_y, tpr_x) =>
        match np_tile3 (newaxis2 (np_outer tpr_y tpr_x)) (1, nt) with
        | inl e => (inl e, log)
        | inr tpr_3d =>
            if plotflag then
              match index_axis2 tpr_3d nt (Z.quot nt 2) with
              | inl e => (inl e, log ++ [Figure 7 3])
              | inr img =>
                  (ok tpr_3d,
                   log ++ [Figure 7 3; Imshow img "jet";
                           Title "Taper in y-x slice"; Xlabel "x"; Ylabel "y"])
              end
            else (ok tpr_3d, log)
        end
    end) as Hrun.
  { intros [e | [tpr_y tpr_x]]; cbn [fst snd]; unfold bind, lift, plt, ret;
      [reflexivity |].
    destruct (np_tile3 _ (1, nt)) as [e | tpr_3d]; [reflexivity |].
    destruct plotflag; [| reflexivity].
    destruct (index_axis2 tpr_3d nt (Z.quot nt 2)) as [e | img]; [reflexivity |].
    now rewrite <- !app_assoc. }
  unfold taper3d. cbn [fst snd] in *.
  unfold selected_yx, selected_1d.
  destruct (is_type tapertype "hanning"); [| destruct (is_type tapertype "cosine");
    [| destruct (is_type tapertype "cosinesquare")]]; apply Hrun.
Qed.

Lemma hanningtaper_returns_when (nmask ntap : Z) :
  2 * ntap <= nmask -> exists tpr, hanningtaper nmask ntap = ok tpr.
Proof.
  intros Hm. eexists. apply hanningtaper_unfold; [| lia].
  destruct ((0 <? ntap) && (nmask / ntap <? 2)) eqn:Eg; [| reflexivity].
  apply hanningtaper_guard in Eg. lia.
Qed.

Lemma selected_1d_no_taper (nmask ntap : Z) (tapertype : option string) :
  no_taper tapertype = true -> selected_1d nmask ntap tapertype = np_ones nmask.
Proof.
  unfold no_taper, selected_1d. intros H.
  apply andb_true_iff in H. destruct H as [H H3].
  apply andb_true_iff in H. destruct H as [H1 H2].
  apply negb_true_iff in H1, H2, H3. now rewrite H1, H2, H3.
Qed.

Lemma np_ones_nonneg (n : Z) : 0 <= n -> np_ones n = ok (repeat one (Z.to_nat n)).
Proof. intros Hn. unfold np_ones. destruct (Z.ltb_spec n 0); [lia | reflexivity]. Qed.

Lemma np_outer_ones (m n : nat) :
  np_outer (repeat one m) (repeat one n) = repeat (repeat one n) m.
Proof.
  unfold np_outer. rewrite map_repeat. f_equal.
  rewrite map_repeat. f_equal.
  unfold one. cbn [mul]. f_equal. lra.
Qed.

(** X10: with [tapertype] [None], or any string other than the three
    names, [taper2d] ignores [ntap] and returns [nmask] rows of [nt]
    ones; [taper3d] returns [my] planes of [mx] rows of [nt] ones. *)
Theorem no_taper_all_ones (nt nmask ntap : Z) (nmask2 ntap2 : Z * Z)
    (tapertype : option string) (log : list plt_call) :
  no_taper tapertype = true -> 0 <= nt ->
  (0 <= nmask ->
   forall plotflag,
     returns (taper2d nt nmask ntap tapertype plotflag) log =
     ok (repeat (repeat one (Z.to_nat nt)) (Z.to_nat nmask))) /\
  (0 <= fst nmask2 -> 0 <= snd nmask2 ->
   returns (taper3d nt nmask2 ntap2 tapertype false) log =
   ok (repeat (repeat (repeat one (Z.to_nat nt)) (Z.to_nat (snd nmask2)))
              (Z.to_nat (fst nmask2)))).
Proof.
  intros Hno Hnt. split.
  - intros Hm plotflag.
    rewrite (taper2d_replicates nt nmask ntap tapertype plotflag log
               (repeat one (Z.to_nat nmask)) Hnt).
    + now rewrite map_repeat.
    + rewrite selected_1d_no_taper by exact Hno. now apply np_ones_nonneg.
  - intros Hy Hx.
    rewrite (taper3d_tiles nt nmask2 ntap2 tapertype log
               (repeat one (Z.to_nat (fst nmask2)))
               (repeat one (Z.to_nat (snd nmask2))) Hnt).
    + rewrite np_outer_ones, map_repeat. do 2 f_equal. now rewrite map_repeat.
    + unfold selected_yx. rewrite !selected_1d_no_taper by exact Hno.
      now rewrite !np_ones_nonneg by assumption.
Qed.

Lemma no_taper_all_ones_witness :
  (forall plotflag,
     returns (taper2d 4 5 0 None plotflag) [] =
     ok (repeat (repeat one (Z.to_nat 4)) (Z.to_nat 5))) /\
  returns (taper3d 4 (3, 2) (7, 7) (Some "boxcar"%string) false) [] =
   ok (repeat (repeat (repeat one (Z.to_nat 4)) (Z.to_nat 2)) (Z.to_nat 3)).
Proof.
  split.
  - apply (no_taper_all_ones 4 5 0 (0, 0) (0, 0) None []); [reflexivity | lia | lia].
  - apply (no_taper_all_ones 4 0 0 (3, 2) (7, 7) (Some "boxcar"%string) []);
      [reflexivity | lia | cbn; lia | cbn; lia].
Defined.

(** X11: whatever [hanningtaper] raises, [taper2d] with ["hanning"]
    raises the same exception, before anything is tiled or plotted: the
    error is the same for every [nt] and [plotflag], and the plotting log
    is left as it was. *)
Theorem taper2d_error_propagates (nt nmask ntap : Z) (plotflag : bool)
    (log : list plt_call) (e : exn) :
  hanningtaper nmask ntap = raise e ->
  taper2d nt nmask ntap (Some "hanning"%string) plotflag log = (raise e, log).
Proof.
  intros He. rewrite taper2d_run.
  change (selected_1d nmask ntap (Some "hanning"%string))
    with (hanningtaper nmask ntap).
  now rewrite He.
Qed.

Lemma taper2d_error_propagates_witness :
  hanningtaper 5 3 =
    raise (ValueError "ntap=3 must be smaller or equal than 2") /\
  taper2d (-7) 5 3 (Some "hanning"%string) true [] =
    (raise (ValueError "ntap=3 must be smaller or equal than 2"), []).
Proof.
  assert (hanningtaper 5 3 =
          raise (ValueError "ntap=3 must be smaller or equal than 2")) as H
    by reflexivity.
  split; [exact H | exact (taper2d_error_propagates (-7) 5 3 true [] _ H)].
Defined.

(** X12: [taper3d] builds the taper of the first axis first: an exception
    of [hanningtaper] on the first axis is the one raised, whatever the
    second axis; an exception on the second axis is raised when the first
    axis succeeds.  Nothing is plotted in either case. *)
Theorem taper3d_error_order (nt my mx ty tx : Z) (plotflag : bool)
    (log : list plt_call) (e : exn) :
  (hanningtaper my ty = raise e ->
   taper3d nt (my, mx) (ty, tx) (Some "hanning"%string) plotflag log =
   (raise e, log)) /\
  (forall tpr_y,
      hanningtaper my ty = ok tpr_y ->
      hanningtaper mx tx = raise e ->
      taper3d nt (my, mx) (ty, tx) (Some "hanning"%string) plotflag log =
      (raise e, log)).
Proof.
  split.
  - intros He. rewrite taper3d_run.
    unfold selected_yx. cbn [fst snd].
    change (selected_1d my ty (Some "hanning"%string)) with (hanningtaper my ty).
    now rewrite He.
  - intros tpr_y Hy He. rewrite taper3d_run.
    unfold selected_yx. cbn [fst snd].
    change (selected_1d my ty (Some "hanning"%string)) with (hanningtaper my ty).
    change (selected_1d mx tx (Some "hanning"%string)) with (hanningtaper mx tx).
    now rewrite Hy, He.
Qed.

Lemma taper3d_error_order_witness :
  taper3d 4 (5, 3) (3, 2) (Some "hanning"%string) true [] =
   (raise (ValueError "ntap=3 must be smaller or equal than 2"), []) /\
  taper3d 4 (10, 3) (3, 2) (Some "hanning"%string) true [] =
   (raise (ValueError "ntap=2 must be smaller or equal than 1"), []).
Proof.
  split.
  - apply (proj1 (taper3d_error_order 4 5 3 3 2 true [] _)). reflexivity.
  - apply (proj2 (taper3d_error_order 4 10 3 3 2 true [] _)
             [hanning_sample 5 0; hanning_sample 5 1; hanning_sample 5 2;
              one; one; one; one;
              hanning_sample 5 2; hanning_sample 5 1; hanning_sample 5 0]);
      reflexivity.
Defined.

(** X13: a negative [nt] is refused by [np.tile]: once the 1-D tapers are
    built, [taper2d] and [taper3d] raise [ValueError] and plot nothing. *)
Theorem negative_nt_raises (nt nmask ntap : Z) (nmask2 ntap2 : Z * Z)
    (tapertype : option string) (plotflag : bool) (log : list plt_call) :
  nt < 0 ->
  (taper_pre tapertype nmask ntap ->
   exists msg,
     taper2d nt nmask ntap tapertype plotflag log = (raise (ValueError msg), log)) /\
  (taper_pre tapertype (fst nmask2) (fst ntap2) ->
   taper_pre tapertype (snd nmask2) (snd ntap2) ->
   exists msg,
     taper3d nt nmask2 ntap2 tapertype plotflag log = (raise (ValueError msg), log)).
Proof.
  intros Hnt. split.
  - intros Hpre. destruct (selected_1d_unit _ _ _ Hpre) as (tpr & Hsel & _).
    eexists. rewrite taper2d_run, Hsel. cbv beta iota delta [ok].
    rewrite np_tile2_negative by exact Hnt. reflexivity.
  - intros Hy Hx.
    destruct (selected_1d_unit _ _ _ Hy) as (tpr_y & Hsy & _).
    destruct (selected_1d_unit _ _ _ Hx) as (tpr_x & Hsx & _).
    eexists. rewrite taper3d_run. unfold selected_yx. rewrite Hsy, Hsx.
    cbn [rbind ok]. cbv beta iota delta [ok].
    rewrite np_tile3_negative by exact Hnt. reflexivity.
Qed.

Lemma negative_nt_raises_witness :
  (exists msg, taper2d (-1) 10 3 (Some "hanning"%string) true [] =
               (raise (ValueError msg), [])) /\
  (exists msg, taper3d (-1) (10, 8) (3, 2) (Some "hanning"%string) true [] =
               (raise (ValueError msg), [])).
Proof.
  assert (hanning_pre 10 3) as Py by (split; [lia | vm_compute; discriminate]).
  assert (hanning_pre 8 2) as Px by (split; [lia | vm_compute; discriminate]).
  split.
  - apply (proj1 (negative_nt_raises (-1) 10 3 (0, 0) (0, 0)
                    (Some "hanning"%string) true [] ltac:(lia))).
    exact Py.
  - apply (proj2 (negative_nt_raises (-1) 0 0 (10, 8) (3, 2)
                    (Some "hanning"%string) true [] ltac:(lia))).
    + exact Py.
    + exact Px.
Defined.

Lemma index_axis2_tiled (yx : list (list float64)) (nt : Z) :
  1 <= nt ->
  index_axis2 (map (map (fun v => repeat v (Z.to_nat nt))) yx) nt (Z.quot nt 2)
  = ok yx.
Proof.
  intros Hnt. unfold index_axis2.
  rewrite Z.quot_div_nonneg by lia.
  assert (0 <= nt / 2 < nt) as [Hlo Hhi]
    by (split; [apply Z.div_pos | apply Z.div_lt_upper_bound]; lia).
  destruct (Z.ltb_spec (nt / 2) (- nt)); [lia |].
  destruct (Z.leb_spec nt (nt / 2)); [lia |].
  destruct (Z.ltb_spec (nt / 2) 0); [lia |].
  cbn [orb]. f_equal. rewrite map_map.
  rewrite <- (map_id yx) at 2. apply map_ext. intros row.
  rewrite map_map. rewrite <- (map_id row) at 2. apply map_ext. intros v.
  apply nth_repeat_lt. lia.
Qed.

(** X14: when [taper2d] succeeds, the same array is returned with and
    without plotting; without the flag the plotting log is untouched, and
    with it exactly three calls are added: a 7x3 figure, a black line of
    width 2 through the 1-D taper (a column of the result), and the title
    ["Taper"]. *)
Theorem taper2d_plot_log (nt nmask ntap : Z) (tapertype : option string)
    (log : list plt_call) :
  0 <= nt -> taper_pre tapertype nmask ntap ->
  exists tpr a,
    taper2d nt nmask ntap tapertype false log = (ok a, log) /\
    taper2d nt nmask ntap tapertype true log =
      (ok a, log ++ [Figure 7 3; Plot tpr "k" 2; Title "Taper"]) /\
    (forall j, 0 <= j < nt -> column (Z.to_nat j) a = map Some tpr).
Proof.
  intros Hnt Hpre.
  destruct (selected_1d_unit _ _ _ Hpre) as (tpr & Hsel & _).
  exists tpr. eexists. rewrite !taper2d_run, Hsel.
  cbv beta iota delta [ok]. rewrite np_tile2_newaxis by exact Hnt.
  cbv beta iota delta [ok].
  split; [reflexivity | split; [reflexivity |]].
  apply (replicates_repeat tpr (Z.of_nat (length tpr)) nt Hnt eq_refl).
Qed.

Lemma taper2d_plot_log_witness :
  exists tpr a,
    taper2d 4 10 3 (Some "hanning"%string) false [] = (ok a, []) /\
    taper2d 4 10 3 (Some "hanning"%string) true [] =
      (ok a, [] ++ [Figure 7 3; Plot tpr "k" 2; Title "Taper"]) /\
    (forall j, 0 <= j < 4 -> column (Z.to_nat j) a = map Some tpr).
Proof.
  apply (taper2d_plot_log 4 10 3 (Some "hanning"%string) []);
    [lia | split; [lia | vm_compute; discriminate]].
Defined.

(** X15: when [taper3d] has at least one slice along the third axis, the
    same array is returned with and without plotting, and plotting adds
    exactly five calls: a 7x3 figure, the image of the middle slice, which
    is the outer product of the two 1-D tapers, with colour map ["jet"],
    the title and the two axis labels. *)
Theorem taper3d_plot_log (nt : Z) (nmask ntap : Z * Z)
    (tapertype : option string) (log : list plt_call) :
  1 <= nt ->
  taper_pre tapertype (fst nmask) (fst ntap) ->
  taper_pre tapertype (snd nmask) (snd ntap) ->
  exists tpr_y tpr_x a,
    selected_1d (fst nmask) (fst ntap) tapertype = ok tpr_y /\
    selected_1d (snd nmask) (snd ntap) tapertype = ok tpr_x /\
    taper3d nt nmask ntap tapertype false log = (ok a, log) /\
    taper3d nt nmask ntap tapertype true log =
      (ok a, log ++ [Figure 7 3; Imshow (np_outer tpr_y tpr_x) "jet";
                     Title "Taper in y-x slice"; Xlabel "x"; Ylabel "y"]).
Proof.
  intros Hnt Hy Hx.
  destruct (selected_1d_unit _ _ _ Hy) as (tpr_y & Hsy & _).
  destruct (selected_1d_unit _ _ _ Hx) as (tpr_x & Hsx & _).
  exists tpr_y, tpr_x. eexists.
  split; [exact Hsy | split; [exact Hsx |]].
  rewrite !taper3d_run. unfold selected_yx. rewrite Hsy, Hsx.
  cbn [rbind ok]. cbv beta iota delta [ok].
  rewrite np_tile3_newaxis by lia. cbv beta iota delta [ok].
  rewrite index_axis2_tiled by exact Hnt. cbv beta iota delta [ok].
  split; reflexivity.
Qed.

Lemma taper3d_plot_log_witness :
  exists tpr_y tpr_x a,
    selected_1d (fst (10, 8)) (fst (3, 2)) (Some "hanning"%string) = ok tpr_y /\
    selected_1d (snd (10, 8)) (snd (3, 2)) (Some "hanning"%string) = ok tpr_x /\
    taper3d 4 (10, 8) (3, 2) (Some "hanning"%string) false [] = (ok a, []) /\
    taper3d 4 (10, 8) (3, 2) (Some "hanning"%string) true [] =
      (ok a, [] ++ [Figure 7 3; Imshow (np_outer tpr_y tpr_x) "jet";
                    Title "Taper in y-x slice"; Xlabel "x"; Ylabel "y"]).
Proof.
  apply (taper3d_plot_log 4 (10, 8) (3, 2) (Some "hanning"%string) []);
    [lia | split; [cbn; lia | vm_compute; discriminate]
         | split; [cbn; lia | vm_compute; discriminate]].
Defined.

(** X16: with [nt = 0] and valid tapers, [taper3d] without plotting
    returns an array with an empty third axis, and with plotting it opens
    the figure and then raises [IndexError] on the middle slice, for every
    taper type and size. *)
Theorem taper3d_plot_no_slice (nmask ntap : Z * Z) (tapertype : option string)
    (log : list plt_call) :
  taper_pre tapertype (fst nmask) (fst ntap) ->
  taper_pre tapertype (snd nmask) (snd ntap) ->
  (exists a,
      taper3d 0 nmask ntap tapertype false log = (ok a, log) /\
      has_shape3 a (fst nmask) (snd nmask) 0) /\
  taper3d 0 nmask ntap tapertype true log =
    (raise (IndexError "index 0 is out of bounds for axis 2 with size 0"),
     log ++ [Figure 7 3]).
Proof.
  intros Hy Hx.
  destruct (selected_1d_unit _ _ _ Hy) as (tpr_y & Hsy & _).
  destruct (selected_1d_unit _ _ _ Hx) as (tpr_x & Hsx & _).
  assert (Z.of_nat (length tpr_y) = fst nmask /\
          Z.of_nat (length tpr_x) = snd nmask) as [Hly Hlx].
  { revert Hy Hx Hsy Hsx. unfold taper_pre, selected_1d.
    destruct (is_type tapertype "hanning").
    - intros [Hn1 Hq1] [Hn2 Hq2] H1 H2.
      destruct (hanningtaper_length_unit _ _ Hn1 Hq1) as (t1 & Ho1 & Hl1 & _).
      destruct (hanningtaper_length_unit _ _ Hn2 Hq2) as (t2 & Ho2 & Hl2 & _).
      rewrite Ho1 in H1. rewrite Ho2 in H2.
      injection H1 as <-. injection H2 as <-. now split.
    - destruct (is_type tapertype "cosine"); cbn [orb].
      + intros Hm1 Hm2 [= <-] [= <-]. rewrite !length_cosinetaper. lia.
      + destruct (is_type tapertype "cosinesquare").
        * intros Hm1 Hm2 [= <-] [= <-]. rewrite !length_cosinetaper. lia.
        * intros Hm1 Hm2. rewrite !np_ones_nonneg by assumption.
          intros [= <-] [= <-]. rewrite !repeat_length. lia. }
  rewrite !taper3d_run. unfold selected_yx. rewrite Hsy, Hsx.
  cbn [rbind ok]. cbv beta iota delta [ok].
  rewrite np_tile3_newaxis by lia. cbv beta iota delta [ok].
  split.
  - eexists. split; [reflexivity |].
    apply has_shape3_repeat; [lia |].
    rewrite <- Hly, <- Hlx. apply has_shape2_np_outer.
  - reflexivity.
Qed.

Lemma taper3d_plot_no_slice_witness :
  (exists a,
      taper3d 0 (5, 4) (0, 0) (Some "cosine"%string) false [] = (ok a, []) /\
      has_shape3 a (fst (5, 4)) (snd (5, 4)) 0) /\
  taper3d 0 (5, 4) (0, 0) (Some "cosine"%string) true [] =
    (raise (IndexError "index 0 is out of bounds for axis 2 with size 0"),
     [] ++ [Figure 7 3]).
Proof.
  apply (taper3d_plot_no_slice (5, 4) (0, 0) (Some "cosine"%string) []);
    vm_compute; discriminate.
Defined.

(** X17: the plotting flag never changes what [taper2d] returns or
    raises, and it does not change what [taper3d] returns or raises as
    long as [nt] is not zero. *)
Theorem plotflag_same_result :
  (forall nt nmask ntap tapertype log,
      returns (taper2d nt nmask ntap tapertype true) log =
      returns (taper2d nt nmask ntap tapertype false) log) /\
  (forall nt nmask ntap tapertype log,
      nt <> 0 ->
      returns (taper3d nt nmask ntap tapertype true) log =
      returns (taper3d nt nmask ntap tapertype false) log).
Proof.
  split.
  - intros. apply taper2d_plotflag.
  - intros. now apply taper3d_plotflag.
Qed.

Lemma plotflag_same_result_witness :
  returns (taper2d 0 5 3 (Some "hanning"%string) true) [] =
  returns (taper2d 0 5 3 (Some "hanning"%string) false) [] /\
  returns (taper3d 3 (4, 4) (2, 1) None true) [] =
  returns (taper3d 3 (4, 4) (2, 1) None false) [].
Proof.
  destruct plotflag_same_result as [H2 H3]. split.
  - apply H2.
  - apply H3. lia.
Defined.

Lemma entry2_tiled (tpr : list float64) (nt : Z) (y k : nat) (v : float64) :
  entry2 (map (fun v => repeat v (Z.to_nat nt)) tpr) y k = Some v ->
  nth_error tpr y = Some v /\ (k < Z.to_nat nt)%nat.
Proof.
  unfold entry2. rewrite nth_error_map.
  destruct (nth_error tpr y) as [u |]; [| discriminate].
  cbn [option_map]. intros H. split.
  - f_equal. symmetry. apply nth_error_In in H. now apply repeat_spec in H.
  - assert (nth_error (repeat u (Z.to_nat nt)) k <> None) as Hk by congruence.
    apply nth_error_Some in Hk. now rewrite repeat_length in Hk.
Qed.

(** X18: the 3-D taper is the product of the two 2-D tapers: when
    [taper2d] returns [ay] for the first axis and [ax] for the second,
    [taper3d] returns an array whose entry [(y, x, k)] is
    [ay[y, k] * ax[x, k]]. *)
Theorem taper3d_entry_product (nt my mx ty tx : Z) (tapertype : option string)
    (log : list plt_call) (ay ax : list (list float64)) :
  returns (taper2d nt my ty tapertype false) log = ok ay ->
  returns (taper2d nt mx tx tapertype false) log = ok ax ->
  exists a,
    returns (taper3d nt (my, mx) (ty, tx) tapertype false) log = ok a /\
    forall y x k vy vx,
      entry2 ay y k = Some vy -> entry2 ax x k = Some vx ->
      entry3 a y x k = Some (mul vy vx).
Proof.
  intros Hay Hax.
  assert (0 <= nt) as Hnt.
  { destruct (Z.lt_ge_cases nt 0) as [Hneg | Hpos]; [| exact Hpos].
    rewrite taper2d_returns in Hay.
    destruct (selected_1d my ty tapertype); [discriminate |].
    cbn [rbind] in Hay. rewrite np_tile2_negative in Hay by exact Hneg.
    discriminate. }
  apply taper2d_returned in Hay. destruct Hay as (tpr_y & Hsy & ->).
  apply taper2d_returned in Hax. destruct Hax as (tpr_x & Hsx & ->).
  eexists. split.
  - apply taper3d_tiles; [exact Hnt |].
    unfold selected_yx. cbn [fst snd]. now rewrite Hsy, Hsx.
  - intros y x k vy vx Hy Hx.
    apply entry2_tiled in Hy. apply entry2_tiled in Hx.
    destruct Hy as [Hy Hk]. destruct Hx as [Hx _].
    now apply entry3_repeat_outer.
Qed.

Lemma taper3d_entry_product_witness :
  let tpr_y :=
    [hanning_sample 5 0; hanning_sample 5 1; hanning_sample 5 2;
     one; one; one; one;
     hanning_sample 5 2; hanning_sample 5 1; hanning_sample 5 0] in
  let tpr_x :=
    [hanning_sample 3 0; hanning_sample 3 1; one; one; one; one;
     hanning_sample 3 1; hanning_sample 3 0] in
  returns (taper2d 2 10 3 (Some "hanning"%string) false) [] =
    ok (map (fun v => [v; v]) tpr_y) /\
  returns (taper2d 2 8 2 (Some "hanning"%string) false) [] =
    ok (map (fun v => [v; v]) tpr_x) /\
  exists a,
    returns (taper3d 2 (10, 8) (3, 2) (Some "hanning"%string) false) [] = ok a /\
    forall y x k vy vx,
      entry2 (map (fun v => [v; v]) tpr_y) y k = Some vy ->
      entry2 (map (fun v => [v; v]) tpr_x) x k = Some vx ->
      entry3 a y x k = Some (mul vy vx).
Proof.
  intros tpr_y tpr_x.
  assert (returns (taper2d 2 10 3 (Some "hanning"%string) false) [] =
          ok (map (fun v => [v; v]) tpr_y)) as Hy by reflexivity.
  assert (returns (taper2d 2 8 2 (Some "hanning"%string) false) [] =
          ok (map (fun v => [v; v]) tpr_x)) as Hx by reflexivity.
  split; [exact Hy | split; [exact Hx |]].
  exact (taper3d_entry_product 2 10 8 3 2 (Some "hanning"%string) [] _ _ Hy Hx).
Defined.
